(** * A command-line template: click dispatch and rich output

    This development embeds [cli.py] of the [python-cli] template: a click
    group [main] carrying a [--version] option and three subcommands,
    [hello], [info] and [list_items], which print through a rich [Console].
    The callbacks are a few lines each; what a run does is decided as much
    by the two libraries, so their behaviour on the arguments and on the
    printed strings is part of the embedding.

    The definitions come first, bottom-up:
    - [Str]: functions on byte strings;
    - [Py]: the Python built-ins the program calls ([int], [str], [range],
      [enumerate]);
    - [Env]: what a run takes from its installation;
    - [Rich]: console markup, emoji codes, the lines of a text and the
      layout of a table;
    - [Click]: options, the option parser and the usage errors;
    - the program: the state of a run, the callbacks [hello], [info] and
      [list_items], the commands around them, and [main];
    - [Tests]: the tests of the template, as checks on the result of a run.
    The properties follow: first those of single commands, then what every
    run keeps, then the tests.

    Conventions.
    - A Python [str] is a Rocq [string], the UTF-8 bytes of the text.
      Classes of characters ([isspace], [isalnum], [lower]) are the ASCII
      ones.
    - Python integers are unbounded ([Z]); [int] converts a literal of at
      most 4300 digits, the limit CPython starts with.
    - What the libraries take from tables or from the installation (the
      emoji table, the grammar of styles, the evaluation of meta tags, the
      conversion of non-ASCII digits, the layout of a line that does not
      fit the console, the name of the program, the release of click) is
      a field of the record [Env].
    - A printed line is a line as it reaches the stream, without colours.
      The console is 80 columns wide, which is the width rich takes when
      no terminal is attached to the process and [COLUMNS] is not set: a
      line of text that is wider is laid on several lines.  The table of
      [info], 46 columns wide, is printed as it is laid out. *)

From Stdlib Require Import String Ascii List ZArith Lia Bool.
From Stdlib Require Import Decimal DecimalString DecimalZ DecimalPos.
Import ListNotations.

Local Open Scope list_scope.
Local Open Scope string_scope.

(** ** Byte strings *)

Module Str.

Fixpoint forallb (p : ascii -> bool) (s : string) : bool :=
  match s with
  | EmptyString => true
  | String c r => p c && forallb p r
  end.

(** [lacks c s]: the character [c] does not occur in [s]. *)
Definition lacks (c : ascii) (s : string) : bool :=
  forallb (fun x => negb (Ascii.eqb x c)) s.

Definition mem (c : ascii) (s : string) : bool := negb (lacks c s).

Fixpoint filter (p : ascii -> bool) (s : string) : string :=
  match s with
  | EmptyString => ""
  | String c r => if p c then String c (filter p r) else filter p r
  end.

Fixpoint repeat (c : string) (n : nat) : string :=
  match n with
  | O => ""
  | S k => c ++ repeat c k
  end.

(** [s.lower()], on ASCII letters. *)
Fixpoint lower (s : string) : string :=
  match s with
  | EmptyString => ""
  | String c r =>
      let n := nat_of_ascii c in
      String (if (65 <=? n)%nat && (n <=? 90)%nat then ascii_of_nat (n + 32) else c)
             (lower r)
  end.

Definition starts_with (c : ascii) (s : string) : bool :=
  match s with
  | String x _ => Ascii.eqb x c
  | EmptyString => false
  end.

Definition tail (s : string) : string :=
  match s with
  | String _ r => r
  | EmptyString => ""
  end.

(** [s.partition("=")]: the text before the first [=], and the text after
    it when there is one. *)
Fixpoint partition_eq (s : string) : string * option string :=
  match s with
  | EmptyString => ("", None)
  | String c r =>
      if Ascii.eqb c "="
      then ("", Some r)
      else let '(a, b) := partition_eq r in (String c a, b)
  end.

(** [suffix] removed from the end of [s], when [s] ends with it. *)
Fixpoint strip_suffix (suffix s : string) : option string :=
  if String.eqb s suffix then Some ""
  else match s with
       | EmptyString => None
       | String c r => option_map (String c) (strip_suffix suffix r)
       end.

(** [s] cut every [width] characters; [room] is what is left of the
    current piece. *)
Fixpoint chunks (width room : nat) (s : string) : list string :=
  match s with
  | EmptyString => [""]
  | String c r =>
      match room with
      | O => "" :: (match chunks width (width - 1) r with
                    | l :: ls => String c l :: ls
                    | [] => [String c ""]
                    end)
      | S k => match chunks width k r with
               | l :: ls => String c l :: ls
               | [] => [String c ""]
               end
      end
  end.

Fixpoint is_infix (needle hay : string) : bool :=
  String.prefix needle hay
  || match hay with
     | EmptyString => false
     | String _ r => is_infix needle r
     end.

End Str.

(** ** Python built-ins *)

Module Py.

(** White space of [str.strip] and of the [\s] class of [re], on ASCII. *)
Definition isspace (c : ascii) : bool :=
  let n := nat_of_ascii c in
  ((9 <=? n)%nat && (n <=? 13)%nat) || ((28 <=? n)%nat && (n <=? 32)%nat).

(** White space that [int] skips around a literal, on ASCII. *)
Definition c_isspace (c : ascii) : bool :=
  let n := nat_of_ascii c in
  ((9 <=? n)%nat && (n <=? 13)%nat) || (n =? 32)%nat.

Definition isalnum_ascii (c : ascii) : bool :=
  let n := nat_of_ascii c in
  ((48 <=? n)%nat && (n <=? 57)%nat)
  || ((65 <=? n)%nat && (n <=? 90)%nat)
  || ((97 <=? n)%nat && (n <=? 122)%nat).

Definition is_ascii (s : string) : bool :=
  Str.forallb (fun c => (nat_of_ascii c <? 128)%nat) s.

Fixpoint lstrip (space : ascii -> bool) (s : string) : string :=
  match s with
  | EmptyString => ""
  | String c r => if space c then lstrip space r else s
  end.

Fixpoint rstrip (space : ascii -> bool) (s : string) : string :=
  match s with
  | EmptyString => ""
  | String c r =>
      match rstrip space r with
      | EmptyString => if space c then "" else String c ""
      | r' => String c r'
      end
  end.

(** [s.strip()] *)
Definition strip (s : string) : string := rstrip isspace (lstrip isspace s).

Definition digit_of (c : ascii) : option (uint -> uint) :=
  match c with
  | "0"%char => Some D0 | "1"%char => Some D1 | "2"%char => Some D2
  | "3"%char => Some D3 | "4"%char => Some D4 | "5"%char => Some D5
  | "6"%char => Some D6 | "7"%char => Some D7 | "8"%char => Some D8
  | "9"%char => Some D9
  | _ => None
  end.

(** The digits of a decimal literal: a digit, then digits each optionally
    preceded by a single underscore. *)
Fixpoint int_digits (s : string) : option uint :=
  match s with
  | EmptyString => None
  | String c r =>
      match digit_of c with
      | None => None
      | Some d =>
          match r with
          | EmptyString => Some (d Nil)
          | String "_"%char r' => option_map d (int_digits r')
          | _ => option_map d (int_digits r)
          end
      end
  end.

(** [sys.get_int_max_str_digits()], as CPython starts with it: the most
    digits [int] converts; a literal with more raises [ValueError]. *)
Definition max_str_digits : nat := 4300.

(** The digits of a literal that [int] converts: leading zeros count
    towards the limit, underscores and the sign do not. *)
Definition int_literal (s : string) : option uint :=
  match int_digits s with
  | Some d => if (nb_digits d <=? max_str_digits)%nat then Some d else None
  | None => None
  end.

(** [int(s)] for an ASCII [s]: surrounding white space is dropped, then an
    optional sign and the digits; [None] stands for [ValueError]. *)
Definition int_ascii (s : string) : option Z :=
  match rstrip c_isspace (lstrip c_isspace s) with
  | String "+"%char d => option_map Z.of_uint (int_literal d)
  | String "-"%char d => option_map (fun u => Z.opp (Z.of_uint u)) (int_literal d)
  | d => option_map Z.of_uint (int_literal d)
  end.

(** [int(s)].  CPython also accepts decimal digits and white space outside
    ASCII; their classification comes from the Unicode database, so the
    conversion of a text with non-ASCII bytes is the environment's, the
    limit on the digits included. *)
Definition int (int_non_ascii : string -> option Z) (s : string) : option Z :=
  if is_ascii s then int_ascii s else int_non_ascii s.

(** [str(n)] for an integer [n].  The program calls it on the numbers of
    the items it lists, far below the limit on the digits that [str]
    shares with [int]. *)
Definition str (n : Z) : string := NilZero.string_of_int (Z.to_int n).

(** The number of digits of [str(n)]. *)
Definition str_digits (n : Z) : nat := String.length (str (Z.abs n)).

(** [range(count)], as the number of iterations of a loop over it. *)
Definition range_len (count : Z) : nat := Z.to_nat count.

(** [enumerate(items, start)]. *)
Fixpoint enumerate {A} (items : list A) (start : Z) : list (Z * A) :=
  match items with
  | [] => []
  | x :: r => (start, x) :: enumerate r (start + 1)
  end.

End Py.

(** ** The environment of a run *)

(** Releases of click differ in what a group does when it is started
    without arguments: up to 8.1 the help page goes to the output stream and
    the exit status is 0; from 8.2 on it is reported as a usage error. *)
Inductive ClickRelease := Click_8_1 | Click_8_2.

Record Env := {
  (** the name the program was started under, shown in the version message *)
  prog_name : string;
  click_release : ClickRelease;
  (** rich's table of emoji, by name *)
  EMOJI : string -> option string;
  (** [Style.normalize]: the canonical form of a style definition *)
  style_normalize : string -> string;
  (** whether the parameters of a meta tag ([[@handler=...]]) evaluate *)
  meta_parameters_ok : string -> bool;
  (** [int] on a text with non-ASCII characters *)
  int_non_ascii : string -> option Z;
  (** the lines rich lays a line on that does not fit the console as it
      is: tabs expanded, wrapped between words and folded at the width *)
  wrap : string -> list string
}.

(** ** rich: markup, emoji codes, text and tables *)

Module Rich.

(** The control codes that [Text] drops from what is appended to it:
    bell, backspace, vertical tab, form feed and carriage return. *)
Definition control_code (c : ascii) : bool :=
  let n := nat_of_ascii c in
  (n =? 7)%nat || (n =? 8)%nat || (n =? 11)%nat || (n =? 12)%nat || (n =? 13)%nat.

Definition strip_control_codes (s : string) : string :=
  Str.filter (fun c => negb (control_code c)) s.

(** *** Emoji codes *)

Inductive Variant := VariantText | VariantEmoji.

Definition variant_code (v : option Variant) : string :=
  match v with
  | Some VariantText => String (ascii_of_nat 239) (String (ascii_of_nat 184) (String (ascii_of_nat 142) ""))
  | Some VariantEmoji => String (ascii_of_nat 239) (String (ascii_of_nat 184) (String (ascii_of_nat 143) ""))
  | None => ""
  end.

(** After an opening colon: the characters up to the next colon, when no
    white space comes before it. *)
Fixpoint emoji_code (s : string) : option string :=
  match s with
  | EmptyString => None
  | String c r =>
      if Ascii.eqb c ":" then Some ""
      else if Py.isspace c then None
      else option_map (String c) (emoji_code r)
  end.

(** A code is a name, optionally followed by [-emoji] or [-text]. *)
Definition split_variant (code : string) : string * option Variant :=
  match Str.strip_suffix "-emoji" code with
  | Some name => (name, Some VariantEmoji)
  | None =>
      match Str.strip_suffix "-text" code with
      | Some name => (name, Some VariantText)
      | None => (code, None)
      end
  end.

Section Emoji.
Variable EMOJI : string -> option string.

Definition do_replace (code : string) : string :=
  let '(name, variant) := split_variant code in
  match EMOJI (Str.lower name) with
  | Some emoji => emoji ++ variant_code variant
  | None => ":" ++ code ++ ":"
  end.

(** [_emoji_replace]: every [:code:] is replaced from left to right;
    [skip] counts the characters of the current match still to pass. *)
Fixpoint emoji_replace_from (skip : nat) (s : string) : string :=
  match s with
  | EmptyString => ""
  | String c r =>
      match skip with
      | S k => emoji_replace_from k r
      | O =>
          if Ascii.eqb c ":" then
            match emoji_code r with
            | Some code => do_replace code ++ emoji_replace_from (S (String.length code)) r
            | None => String c (emoji_replace_from 0 r)
            end
          else String c (emoji_replace_from 0 r)
      end
  end.

Definition emoji_replace (s : string) : string := emoji_replace_from 0 s.

End Emoji.

(** *** Console markup *)

Inductive MarkupError :=
| ClosingTagMismatch (tag : string)
| NothingToClose
| MetaParameters (parameters : string).

Record Tag := { tag_name : string; tag_parameters : option string }.

Inductive Token :=
| Plain (text : string)
| Markup (t : Tag).

Fixpoint span_backslashes (s : string) : nat * string :=
  match s with
  | String "\"%char r => let '(n, t) := span_backslashes r in (S n, t)
  | _ => (O, s)
  end.

(** First character of a tag: [a-z], [#], [/] or [@]. *)
Definition tag_start (c : ascii) : bool :=
  let n := nat_of_ascii c in
  ((97 <=? n)%nat && (n <=? 122)%nat)
  || Ascii.eqb c "#" || Ascii.eqb c "/" || Ascii.eqb c "@".

(** The rest of a tag: the characters up to the first closing bracket,
    none of them an opening bracket. *)
Fixpoint tag_body (s : string) : option string :=
  match s with
  | EmptyString => None
  | String c r =>
      if Ascii.eqb c "]" then Some ""
      else if Ascii.eqb c "[" then None
      else option_map (String c) (tag_body r)
  end.

(** A match of [RE_TAGS] at the head of [s]: the number of backslashes
    before the bracket and the text between the brackets. *)
Definition match_tag (s : string) : option (nat * string) :=
  let '(escapes, t) := span_backslashes s in
  match t with
  | String "["%char (String c r) =>
      if tag_start c
      then option_map (fun body => (escapes, String c body)) (tag_body r)
      else None
  | _ => None
  end.

Definition flush (plain : string) : list Token :=
  match plain with
  | EmptyString => []
  | _ => [Plain plain]
  end.

(** What [_parse] yields for one match. *)
Definition tag_tokens (escapes : nat) (tag_text : string) : list Token :=
  let backslashes := Nat.div escapes 2 in
  let escaped := Nat.odd escapes in
  (match backslashes with
   | O => []
   | _ => [Plain (Str.repeat "\" backslashes)]
   end
   ++
   if escaped
   then [Plain ("[" ++ tag_text ++ "]")]
   else let '(name, parameters) := Str.partition_eq tag_text in
        [Markup {| tag_name := name; tag_parameters := parameters |}])%list.

(** [_parse]: the matches of [RE_TAGS] from left to right, with the text
    between them.  [plain] is the text since the last match and [skip]
    counts the characters of the current match still to pass. *)
Fixpoint parse_from (skip : nat) (plain : string) (s : string) : list Token :=
  match s with
  | EmptyString => flush plain
  | String c r =>
      match skip with
      | S k => parse_from k plain r
      | O =>
          match match_tag s with
          | Some (escapes, tag_text) =>
              (flush plain ++ tag_tokens escapes tag_text
               ++ parse_from (escapes + String.length tag_text + 1) "" r)%list
          | None => parse_from 0 (plain ++ String c "") r
          end
      end
  end.

Definition parse (markup : string) : list Token := parse_from 0 "" markup.

(** [plain_text.replace("\\[", "[")] *)
Fixpoint unescape (s : string) : string :=
  match s with
  | EmptyString => ""
  | String "\"%char (String "["%char r) => String "[" (unescape r)
  | String c r => String c (unescape r)
  end.

(** [pop_style]: the innermost open tag of that name leaves the stack
    (held innermost first). *)
Fixpoint pop_style (style_name : string) (stack : list Tag) : option (Tag * list Tag) :=
  match stack with
  | [] => None
  | t :: r =>
      if String.eqb (tag_name t) style_name then Some (t, r)
      else option_map (fun '(found, r') => (found, t :: r')) (pop_style style_name r)
  end.

Definition pop (stack : list Tag) : option (Tag * list Tag) :=
  match stack with
  | [] => None
  | t :: r => Some (t, r)
  end.

Section Markup.
Variable env : Env.

(** What a closed tag still has to pass: the parameters of a meta tag are
    evaluated when the tag is closed. *)
Definition close_tag (open_tag : Tag) : option MarkupError :=
  if Str.starts_with "@" (tag_name open_tag) then
    match tag_parameters open_tag with
    | Some (String c p) =>
        if meta_parameters_ok env (String c p) then None
        else Some (MetaParameters (String c p))
    | _ => None
    end
  else None.

(** The loop of [render] over the tokens: the text so far and the stack of
    open tags.  Styles do not change the text and are not kept. *)
Fixpoint render_tokens (tokens : list Token) (text : string) (style_stack : list Tag)
  : MarkupError + string :=
  match tokens with
  | [] => inr text
  | Plain plain_text :: rest =>
      render_tokens rest
        (text ++ strip_control_codes (emoji_replace (EMOJI env) (unescape plain_text)))
        style_stack
  | Markup tag :: rest =>
      if Str.starts_with "/" (tag_name tag) then
        let style_name := Py.strip (Str.tail (tag_name tag)) in
        match style_name with
        | String _ _ =>
            match pop_style (style_normalize env style_name) style_stack with
            | None => inl (ClosingTagMismatch (tag_name tag))
            | Some (open_tag, stack') =>
                match close_tag open_tag with
                | Some e => inl e
                | None => render_tokens rest text stack'
                end
            end
        | EmptyString =>
            match pop style_stack with
            | None => inl NothingToClose
            | Some (open_tag, stack') =>
                match close_tag open_tag with
                | Some e => inl e
                | None => render_tokens rest text stack'
                end
            end
        end
      else
        render_tokens rest text
          ({| tag_name := style_normalize env (tag_name tag);
              tag_parameters := tag_parameters tag |} :: style_stack)
  end.

(** [render]: the plain text of a markup string, or the error raised. *)
Definition render (markup : string) : MarkupError + string :=
  if negb (Str.mem "[" markup)
  then inr (strip_control_codes (emoji_replace (EMOJI env) markup))
  else render_tokens (parse markup) "" [].

End Markup.

(** *** Lines of a text *)

(** [text.split("\n")]: a printed text ends each of these lines. *)
Fixpoint split_lines (s : string) : list string :=
  match s with
  | EmptyString => [""]
  | String c r =>
      if Ascii.eqb c (ascii_of_nat 10) then "" :: split_lines r
      else match split_lines r with
           | l :: ls => String c l :: ls
           | [] => [String c ""]
           end
  end.

(** *** The width of the console *)

(** The width of the console: the one rich takes when no terminal is
    attached to the process and [COLUMNS] is not set. *)
Definition console_width : nat := 80.

(** A line that is printed as it is: it holds no tab and is no wider than
    the console.  A character takes at most as many cells as it has
    bytes. *)
Definition fits (line : string) : bool :=
  (String.length line <=? console_width)%nat && Str.lacks (ascii_of_nat 9) line.

(** The lines a line of text is laid on. *)
Definition lay_out (env : Env) (line : string) : list string :=
  if fits line then [line] else wrap env line.

(** *** Tables *)

Module Table.

(** [Table(title=...)], [add_column] and [add_row], for text cells. *)
Record t := { title : option string; columns : list string; rows : list (list string) }.

Definition new (title : string) : t :=
  {| title := Some title; columns := []; rows := [] |}.

Definition add_column (table : t) (header : string) : t :=
  {| title := title table;
     columns := (columns table ++ [header])%list;
     rows := rows table |}.

Definition add_row (table : t) (cells : list string) : t :=
  {| title := title table;
     columns := columns table;
     rows := (rows table ++ [cells])%list |}.

Definition pad (width : nat) (s : string) : string :=
  s ++ Str.repeat " " (width - String.length s).

Definition center (width : nat) (s : string) : string :=
  let excess := (width - String.length s)%nat in
  let left := Nat.div excess 2 in
  Str.repeat " " left ++ s ++ Str.repeat " " (excess - left).

Definition cell (row : list string) (j : nat) : string := nth j row "".

Definition column_width (headers : list string) (body : list (list string)) (j : nat) : nat :=
  fold_left Nat.max (map (fun row => String.length (cell row j)) body)
            (String.length (cell headers j)).

(** A horizontal rule of the box. *)
Definition rule (left mid right bar : string) (widths : list nat) : string :=
  left ++ String.concat mid (map (fun w => Str.repeat bar (w + 2)) widths) ++ right.

(** A row of cells between vertical bars, each cell padded by one space. *)
Definition row_line (bar : string) (widths : list nat) (row : list string) : string :=
  bar
  ++ String.concat bar
       (map (fun '(j, w) => " " ++ pad w (cell row j) ++ " ")
            (combine (seq 0 (List.length widths)) widths))
  ++ bar.

(** The lines of a table in the default box ([HEAVY_HEAD]), with the title
    centred above it; the texts are those already rendered, each of one
    line and of ASCII characters. *)
Definition lines (title : option string) (headers : list string) (body : list (list string))
  : list string :=
  let widths := map (column_width headers body) (seq 0 (List.length headers)) in
  let total := (fold_left Nat.add (map (fun w => w + 3) widths) 1)%nat in
  ((match title with
    | Some s => [center total s]
    | None => []
    end)
   ++ [rule "┏" "┳" "┓" "━" widths]
   ++ [row_line "┃" widths headers]
   ++ [rule "┡" "╇" "┩" "━" widths]
   ++ map (row_line "│" widths) body
   ++ [rule "└" "┴" "┘" "─" widths])%list.

End Table.

Fixpoint render_all (env : Env) (texts : list string) : MarkupError + list string :=
  match texts with
  | [] => inr []
  | x :: r =>
      match render env x with
      | inl e => inl e
      | inr y =>
          match render_all env r with
          | inl e => inl e
          | inr ys => inr (y :: ys)
          end
      end
  end.

Fixpoint render_rows (env : Env) (body : list (list string)) : MarkupError + list (list string) :=
  match body with
  | [] => inr []
  | x :: r =>
      match render_all env x with
      | inl e => inl e
      | inr y =>
          match render_rows env r with
          | inl e => inl e
          | inr ys => inr (y :: ys)
          end
      end
  end.

(** The lines printed for a table: title, headers and cells are markup. *)
Definition render_table (env : Env) (table : Table.t) : MarkupError + list string :=
  match render_all env (match Table.title table with Some s => [s] | None => [] end) with
  | inl e => inl e
  | inr title =>
      match render_all env (Table.columns table) with
      | inl e => inl e
      | inr headers =>
          match render_rows env (Table.rows table) with
          | inl e => inl e
          | inr body => inr (Table.lines (hd_error title) headers body)
          end
      end
  end.

End Rich.

(** ** click: options, parsing and errors *)

Module Click.

(** An option of a command: its name on the command line, whether a value
    follows it, and whether its callback runs before the other
    parameters. *)
Record Option_ := { opt : string; takes_value : bool; is_eager : bool }.

(** [click.version_option] and the [--help] option every command has. *)
Definition version_option : Option_ :=
  {| opt := "--version"; takes_value := false; is_eager := true |}.
Definition help_option : Option_ :=
  {| opt := "--help"; takes_value := false; is_eager := true |}.

(** [click.option(name, default=...)]: an option with a value. *)
Definition value_option (name : string) : Option_ :=
  {| opt := name; takes_value := true; is_eager := false |}.

Inductive UsageError :=
| NoSuchOption (name : string)
| OptionRequiresArgument (name : string)
| OptionTakesNoValue (name : string)
| BadParameter (param_hint : string) (value : string)
| UnexpectedExtraArguments (args : list string)
| NoSuchCommand (name : string)
| MissingCommand
| NoArgsIsHelpError.

(** The state of the parser: the values of the options seen (the last one
    first), the positional arguments, and the options in the order they
    were seen. *)
Record ParsingState := {
  opts : list (string * string);
  largs : list string;
  order : list string
}.

Definition initial : ParsingState := {| opts := []; largs := []; order := [] |}.

Definition store (o : Option_) (value : string) (st : ParsingState) : ParsingState :=
  {| opts := (opt o, value) :: opts st;
     largs := largs st;
     order := (order st ++ [opt o])%list |}.

Definition add_largs (args : list string) (st : ParsingState) : ParsingState :=
  {| opts := opts st; largs := (largs st ++ args)%list; order := order st |}.

Fixpoint get_value (name : string) (values : list (string * string)) : option string :=
  match values with
  | [] => None
  | (k, v) :: r => if String.eqb k name then Some v else get_value name r
  end.

Fixpoint find_option (options : list Option_) (name : string) : option Option_ :=
  match options with
  | [] => None
  | o :: r => if String.eqb (opt o) name then Some o else find_option r name
  end.

(** A token is read as an option when it starts with [-] and is longer
    than one character. *)
Definition is_option_token (arg : string) : bool :=
  match arg with
  | String "-"%char (String _ _) => true
  | _ => false
  end.

(** The error for a token that names no option: a token that does not
    start with [--] is read as a group of short options, and its first
    letter is reported. *)
Definition no_such_option (arg long_opt : string) : UsageError :=
  match arg with
  | String "-"%char (String "-"%char _) => NoSuchOption long_opt
  | String p (String c _) => NoSuchOption (String p (String c ""))
  | _ => NoSuchOption long_opt
  end.

(** [OptionParser.parse_args]: the tokens from left to right.  [--] ends
    the options; an option that takes a value takes it from [--opt=value]
    or from the next token, whatever that token is; a token that is not an
    option is kept as an argument when [interspersed], and ends the
    options otherwise. *)
Fixpoint process_args (options : list Option_) (interspersed : bool)
         (rargs : list string) (st : ParsingState) : UsageError + ParsingState :=
  match rargs with
  | [] => inr st
  | arg :: rest =>
      if String.eqb arg "--" then inr (add_largs rest st)
      else if is_option_token arg then
        let '(long_opt, explicit_value) := Str.partition_eq arg in
        match find_option options long_opt with
        | None => inl (no_such_option arg long_opt)
        | Some o =>
            if takes_value o then
              match explicit_value with
              | Some value => process_args options interspersed rest (store o value st)
              | None =>
                  match rest with
                  | [] => inl (OptionRequiresArgument (opt o))
                  | value :: rest' =>
                      process_args options interspersed rest' (store o value st)
                  end
              end
            else
              match explicit_value with
              | Some _ => inl (OptionTakesNoValue (opt o))
              | None => process_args options interspersed rest (store o "" st)
              end
        end
      else if interspersed then process_args options interspersed rest (add_largs [arg] st)
      else inr (add_largs (arg :: rest) st)
  end.

(** The first eager option among those seen: its callback runs first. *)
Fixpoint first_eager (options : list Option_) (seen : list string) : option string :=
  match seen with
  | [] => None
  | name :: r =>
      match find_option options name with
      | Some o => if is_eager o then Some name else first_eager options r
      | None => first_eager options r
      end
  end.

(** [split_opt(name)[0]]: the option prefix of a token, here whether there
    is one.  Characters outside ASCII count as alphanumeric. *)
Definition has_opt_prefix (name : string) : bool :=
  match name with
  | EmptyString => false
  | String c _ => negb (Py.isalnum_ascii c || (128 <=? nat_of_ascii c)%nat)
  end.

End Click.

(** ** The program *)

(** The callbacks of the three subcommands. *)
Inductive Handler := Hello | Info | ListItems.

(** The group and its subcommands. *)
Inductive Command := Group | Sub (h : Handler).

(** What the program writes: lines of text, and the pages click composes
    (the help page of a command, its usage lines, an error message), whose
    wording belongs to click; a traceback when an exception leaves the
    program. *)
Inductive Output :=
| Line (text : string)
| HelpPage (c : Command)
| UsagePage (c : Command)
| ErrorMessage (e : Click.UsageError)
| Traceback (e : Rich.MarkupError).

(** The effects of a run: the two streams and the callbacks entered. *)
Record World := {
  stdout : list Output;
  stderr : list Output;
  called : list Handler
}.

Definition quiet : World := {| stdout := []; stderr := []; called := [] |}.

(** The exceptions that leave a callback or the parser. *)
Inductive Raised :=
| Exit (code : Z)
| ClickException (c : Command) (e : Click.UsageError)
| MarkupError (e : Rich.MarkupError).

Definition M (A : Type) : Type := World -> World * (Raised + A).

Definition ret {A} (x : A) : M A := fun w => (w, inr x).

Definition bind {A B} (m : M A) (k : A -> M B) : M B :=
  fun w =>
    match m w with
    | (w', inr x) => k x w'
    | (w', inl e) => (w', inl e)
    end.

Definition raise {A} (e : Raised) : M A := fun w => (w, inl e).

Notation "x <- m ;; k" := (bind m (fun x => k))
  (at level 61, m at next level, right associativity).
Notation "m ;; k" := (bind m (fun _ => k))
  (at level 61, right associativity).

(** The world after some output. *)
Definition write (o : list Output) (w : World) : World :=
  {| stdout := (stdout w ++ o)%list; stderr := stderr w; called := called w |}.

Definition echo (o : list Output) : M unit := fun w => (write o w, inr tt).

Definition enter (h : Handler) : M unit :=
  fun w => ({| stdout := stdout w; stderr := stderr w; called := (called w ++ [h])%list |}, inr tt).

(** [for x in xs: body(x)] *)
Fixpoint for_each {A} (xs : list A) (body : A -> M unit) : M unit :=
  match xs with
  | [] => ret tt
  | x :: r => body x ;; for_each r body
  end.

(** [for _ in range(count): body] *)
Definition for_range (count : Z) (body : M unit) : M unit :=
  for_each (List.repeat tt (Py.range_len count)) (fun _ => body).

(** The result of a run of the program: the exit status of the process
    and what it wrote. *)
Record Result := { exit_code : Z; streams : World }.

(** The placeholder the template carries for the name of the project. *)
Definition PROJECT_NAME : string := "{{PROJECT_NAME}}".

(** The subcommands of the group, under the names click derives from
    the functions. *)
Definition commands : list (string * Handler) :=
  [("hello", Hello); ("info", Info); ("list-items", ListItems)].

Fixpoint lookup (name : string) (table : list (string * Handler)) : option Handler :=
  match table with
  | [] => None
  | (k, h) :: r => if String.eqb k name then Some h else lookup name r
  end.

Definition get_command (cmd_name : string) : option Handler := lookup cmd_name commands.

(** The options of the group: [--version] and [--help]. *)
Definition group_options : list Click.Option_ := [Click.version_option; Click.help_option].

(** How a click exception is shown on the error stream. *)
Definition show (c : Command) (e : Click.UsageError) : list Output :=
  match e with
  | Click.NoArgsIsHelpError => [HelpPage c]
  | _ => [UsagePage c; ErrorMessage e]
  end.

(** Standalone mode, around the group: click exceptions are shown and
    give status 2, [Exit] gives its status, any other exception ends the
    process with a traceback and status 1. *)
Definition standalone {A} (run : World * (Raised + A)) : Result :=
  match run with
  | (w, inr _) => {| exit_code := 0; streams := w |}
  | (w, inl (Exit code)) => {| exit_code := code; streams := w |}
  | (w, inl (ClickException c e)) =>
      {| exit_code := 2;
         streams := {| stdout := stdout w;
                       stderr := (stderr w ++ show c e)%list;
                       called := called w |} |}
  | (w, inl (MarkupError e)) =>
      {| exit_code := 1;
         streams := {| stdout := stdout w;
                       stderr := (stderr w ++ [Traceback e])%list;
                       called := called w |} |}
  end.

Section Program.
Context (env : Env).

(** *** The console *)

(** [console.print(markup)] *)
Definition console_print (markup : string) : M unit :=
  match Rich.render env markup with
  | inl e => raise (MarkupError e)
  | inr text => echo (map Line (flat_map (Rich.lay_out env) (Rich.split_lines text)))
  end.

(** [console.print(table)] *)
Definition console_print_table (table : Rich.Table.t) : M unit :=
  match Rich.render_table env table with
  | inl e => raise (MarkupError e)
  | inr lines => echo (map Line lines)
  end.

(** *** The callbacks *)

Definition hello (name : string) (count : Z) : M unit :=
  for_range count
    (console_print ("[bold green]Hello, " ++ name ++ "![/bold green]")).

Definition info : M unit :=
  let table := Rich.Table.new (PROJECT_NAME ++ " Info") in
  let table := Rich.Table.add_column table "Property" in
  let table := Rich.Table.add_column table "Value" in
  let table := Rich.Table.add_row table ["Name"; PROJECT_NAME] in
  let table := Rich.Table.add_row table ["Version"; "0.1.0"] in
  let table := Rich.Table.add_row table ["Description"; "A CLI tool built with Python"] in
  console_print_table table.

Definition list_items (items : list string) : M unit :=
  match items with
  | [] => console_print "[yellow]No items provided![/yellow]"
  | _ =>
      console_print "[bold]Items:[/bold]" ;;
      for_each (Py.enumerate items 1)
        (fun '(i, item) => console_print ("  " ++ Py.str i ++ ". " ++ item))
  end.

(** *** The commands click builds around the callbacks *)

Definition version_message : string := prog_name env ++ ", version 0.1.0".

(** A group started without arguments shows its help page. *)
Definition no_args_is_help : M unit :=
  match click_release env with
  | Click_8_1 => echo [HelpPage Group] ;; raise (Exit 0)
  | Click_8_2 => raise (ClickException Group Click.NoArgsIsHelpError)
  end.

(** [Command.parse_args]: the tokens are parsed, then the callback of the
    first eager option seen runs; both [--version] and [--help] print and
    leave with status 0. *)
Definition parse_args (c : Command) (options : list Click.Option_) (interspersed : bool)
           (args : list string) : M Click.ParsingState :=
  match Click.process_args options interspersed args Click.initial with
  | inl e => raise (ClickException c e)
  | inr st =>
      match Click.first_eager options (Click.order st) with
      | Some name =>
          (if String.eqb name "--version"
           then echo [Line version_message]
           else echo [HelpPage c]) ;;
          raise (Exit 0)
      | None => ret st
      end
  end.

Definition no_extra_args (c : Command) (args : list string) : M unit :=
  match args with
  | [] => ret tt
  | _ => raise (ClickException c (Click.UnexpectedExtraArguments args))
  end.

(** [@main.command() @click.option("--name", default="World")
    @click.option("--count", default=1) def hello(name, count)] *)
Definition hello_command (args : list string) : M unit :=
  st <- parse_args (Sub Hello)
          [Click.value_option "--name"; Click.value_option "--count"; Click.help_option]
          true args ;;
  let name :=
    match Click.get_value "--name" (Click.opts st) with
    | Some value => value
    | None => "World"
    end in
  count <-
    match Click.get_value "--count" (Click.opts st) with
    | Some value =>
        match Py.int (int_non_ascii env) value with
        | Some n => ret n
        | None => raise (ClickException (Sub Hello) (Click.BadParameter "--count" value))
        end
    | None => ret 1%Z
    end ;;
  no_extra_args (Sub Hello) (Click.largs st) ;;
  enter Hello ;;
  hello name count.

(** [@main.command() def info()] *)
Definition info_command (args : list string) : M unit :=
  st <- parse_args (Sub Info) [Click.help_option] true args ;;
  no_extra_args (Sub Info) (Click.largs st) ;;
  enter Info ;;
  info.

(** [@main.command() @click.argument("items", nargs=-1) def list_items(items)] *)
Definition list_items_command (args : list string) : M unit :=
  st <- parse_args (Sub ListItems) [Click.help_option] true args ;;
  enter ListItems ;;
  list_items (Click.largs st).

Definition invoke_command (h : Handler) (args : list string) : M unit :=
  match h with
  | Hello => hello_command args
  | Info => info_command args
  | ListItems => list_items_command args
  end.

(** [@click.group() @click.version_option(version="0.1.0") def main()]:
    the options of the group end at the first token that is not one. *)
Definition main_parse_args (args : list string) : M (list string) :=
  match args with
  | [] => no_args_is_help
  | _ => ret tt
  end ;;
  st <- parse_args Group group_options false args ;;
  ret (Click.largs st).

(** [resolve_command]: the name is looked up as it is.  When it names no
    command and has the prefix of an option, click first parses the
    arguments of the group again, which by then are empty. *)
Definition resolve_command (cmd_name : string) : M Handler :=
  match get_command cmd_name with
  | Some h => ret h
  | None =>
      (if Click.has_opt_prefix cmd_name
       then main_parse_args [] ;; ret tt
       else ret tt) ;;
      raise (ClickException Group (Click.NoSuchCommand cmd_name))
  end.

(** [Group.invoke]: the first argument left names the subcommand, the rest
    are its arguments; the body of [main] itself is [pass]. *)
Definition main_invoke (rest : list string) : M unit :=
  match rest with
  | [] => raise (ClickException Group Click.MissingCommand)
  | cmd_name :: args =>
      h <- resolve_command cmd_name ;;
      invoke_command h args
  end.

(** [main()] on the arguments of the process. *)
Definition main (argv : list string) : Result :=
  standalone ((rest <- main_parse_args argv ;; main_invoke rest) quiet).

End Program.

(** ** Inputs of the properties *)

(** Printable characters: no control character; the bytes from 128 on
    belong to characters outside ASCII. *)
Definition printable (c : ascii) : bool :=
  let n := nat_of_ascii c in (32 <=? n)%nat && negb (n =? 127)%nat.

(** A text that prints as it is: printable, with no bracket that could
    open a markup tag and no colon that could open an emoji code. *)
Definition verbatim (s : string) : bool :=
  Str.forallb printable s && Str.lacks "[" s && Str.lacks ":" s.

(** Where the options of the group end: at the end of the arguments, at
    [--], or at a token that is not read as an option. *)
Definition ends_options (rest : list string) : Prop :=
  match rest with
  | [] => True
  | arg :: _ => arg = "--" \/ Click.is_option_token arg = false
  end.

(** A name that starts with an ASCII letter or digit, or is empty. *)
Definition plain_name (name : string) : bool :=
  match name with
  | EmptyString => true
  | String c _ => Py.isalnum_ascii c
  end.

(** The characters of [str(n)]: digits and the sign. *)
Definition num_char (c : ascii) : bool :=
  match Py.digit_of c with
  | Some _ => true
  | None => Ascii.eqb c "-"
  end.

(** The decimal notation of a power of ten: a one and [k] zeros. *)
Definition one_and_zeros (k : nat) : uint := D1 (Nat.iter k D0 Nil).

(** The least integer with more digits than [int] converts: a one and
    4300 zeros. *)
Definition over_limit : Z := Z.of_uint (one_and_zeros Py.max_str_digits).

(** A markup tag without parameters. *)
Definition tag (name : string) : Rich.Token :=
  Rich.Markup {| Rich.tag_name := name; Rich.tag_parameters := None |}.

(** An environment to run examples in: the program is started as [main],
    as the test runner of click does; the emoji table is cut down to two
    entries, style names are normalised by the fallback of
    [Style.normalize], and a line that does not fit the console is cut
    at its width, which is what rich does to a line without white
    space. *)
Definition runner (release : ClickRelease) : Env :=
  {| prog_name := "main";
     click_release := release;
     EMOJI := fun name =>
       if String.eqb name "smile" then Some "😄"
       else if String.eqb name "apple" then Some "🍎"
       else None;
     style_normalize := fun s => Str.lower (Py.strip s);
     meta_parameters_ok := fun _ => true;
     int_non_ascii := fun _ => None;
     wrap := fun line => Str.chunks Rich.console_width Rich.console_width line |}.

(** ** The tests of the template *)

Module Tests.

(** [sub] counted in [s] from left to right without overlap; [skip]
    counts the characters of the current occurrence still to pass. *)
Fixpoint count_from (skip : nat) (sub s : string) : nat :=
  match s with
  | EmptyString => O
  | String _ r =>
      match skip with
      | S k => count_from k sub r
      | O =>
          if String.prefix sub s
          then S (count_from (String.length sub - 1) sub r)
          else count_from 0 sub r
      end
  end.

(** [s.count(sub)] *)
Definition count (sub s : string) : nat :=
  match sub with
  | EmptyString => S (String.length s)
  | _ => count_from 0 sub s
  end.

(** The text of printed lines, each ended by a newline; [None] when a page
    is among them, whose wording is click's. *)
Fixpoint lines_text (o : list Output) : option string :=
  match o with
  | [] => Some ""
  | Line text :: r =>
      option_map (fun t => text ++ String (ascii_of_nat 10) t) (lines_text r)
  | _ :: _ => None
  end.

(** [runner.invoke(main, args)]: the test runner starts the group under
    its own name. *)
Definition invoke (env : Env) (args : list string) : Result :=
  main {| prog_name := "main";
          click_release := click_release env;
          EMOJI := EMOJI env;
          style_normalize := style_normalize env;
          meta_parameters_ok := meta_parameters_ok env;
          int_non_ascii := int_non_ascii env;
          wrap := wrap env |} args.

(** [result.output], for a run that wrote nothing on the error stream. *)
Definition output (result : Result) : option string :=
  match stderr (streams result) with
  | [] => lines_text (stdout (streams result))
  | _ => None
  end.

(** [assert sub in result.output]; it fails also when the text of the
    output is not known. *)
Definition in_output (sub : string) (result : Result) : bool :=
  match output result with
  | Some text => Str.is_infix sub text
  | None => false
  end.

(** The body of [test_hello_with_name], for any name in place of
    [Python]. *)
Definition check_hello_with_name (env : Env) (name : string) : bool :=
  let result := invoke env ["hello"; "--name"; name] in
  (exit_code result =? 0)%Z
  && in_output ("Hello, " ++ name ++ "!") result.

(** The body of [test_hello_with_count], for any count in place of 3. *)
Definition check_hello_with_count (env : Env) (n : nat) : bool :=
  let result := invoke env ["hello"; "--count"; Py.str (Z.of_nat n)] in
  (exit_code result =? 0)%Z
  && match output result with
     | Some text => (count "Hello, World!" text =? n)%nat
     | None => false
     end.

(** The body of [test_list_items], for any items in place of the three
    fruits. *)
Definition check_list_items (env : Env) (items : list string) : bool :=
  let result := invoke env ("list-items" :: items) in
  (exit_code result =? 0)%Z
  && forallb (fun item => in_output item result) items.

Definition test_hello_default (env : Env) : bool :=
  let result := invoke env ["hello"] in
  (exit_code result =? 0)%Z && in_output "Hello, World!" result.

Definition test_hello_with_name (env : Env) : bool :=
  check_hello_with_name env "Python".

Definition test_hello_with_count (env : Env) : bool :=
  check_hello_with_count env 3.

Definition test_info (env : Env) : bool :=
  let result := invoke env ["info"] in
  (exit_code result =? 0)%Z && in_output PROJECT_NAME result.

Definition test_list_items (env : Env) : bool :=
  check_list_items env ["apple"; "banana"; "cherry"].

End Tests.

(** ** Option lists of hello *)

(** The tokens of a sequence of options of [hello] with their values:
    [(true, v)] stands for [--name v] and [(false, v)] for [--count v]. *)
Definition option_name (is_name : bool) : string :=
  if is_name then "--name" else "--count".

Definition option_tokens (given : list (bool * string)) : list string :=
  flat_map (fun '(is_name, value) => [option_name is_name; value]) given.

(** The value given last for an option, when it was given. *)
Definition last_value (is_name : bool) (given : list (bool * string)) : option string :=
  fold_left (fun found '(b, value) => if Bool.eqb b is_name then Some value else found)
            given None.

(** The last [--name] and the last [--count] of a sequence, alone. *)
Definition last_values (given : list (bool * string)) : list (bool * string) :=
  (match last_value true given with Some v => [(true, v)] | None => [] end
   ++ match last_value false given with Some v => [(false, v)] | None => [] end)%list.

(** The options of [hello]. *)
Definition hello_options : list Click.Option_ :=
  [Click.value_option "--name"; Click.value_option "--count"; Click.help_option].

(** ** Shapes of a run *)

(** How the run of a command from the quiet state can end: in a usage
    error with nothing written; with one page or message written and
    [Exit] with status 0; or inside or after the callback [h], with lines
    written and nothing else. *)
Definition command_run (h : Handler) (run : World * (Raised + unit)) : Prop :=
  (exists c e, run = (quiet, inl (ClickException c e)))
  \/ (exists o, run = (write [o] quiet, inl (Exit 0)))
  \/ (exists lines,
         fst run = {| stdout := map Line lines; stderr := []; called := [h] |}
         /\ (snd run = inr tt \/ exists e, snd run = inl (MarkupError e))).

(** A computation that only prints lines, and may stop on a markup
    error. *)
Definition prints (m : M unit) : Prop :=
  forall w, exists lines,
    fst (m w) = write (map Line lines) w
    /\ (snd (m w) = inr tt \/ exists e, snd (m w) = inl (MarkupError e)).

(** ** Proof steps *)

(** Case analysis on the eight bits of a character. *)
Ltac by_cases_on c :=
  destruct c as [[] [] [] [] [] [] [] []]; try discriminate; try reflexivity.

(** The run of [main] on given arguments, up to the callback. *)
Ltac run_main :=
  unfold main, main_parse_args, main_invoke; cbn -[hello list_items info].

(** A given text is no wider than the console, a given number within the
    limit on the digits. *)
Ltac fits_console := apply Nat.leb_le; reflexivity.

(** * Properties *)

(** ** Byte strings *)

Lemma app_nil_r (s : string) : s ++ "" = s.
Proof. induction s as [|c s IH]; simpl; [reflexivity | now rewrite IH]. Qed.

Lemma app_assoc (a b c : string) : (a ++ b) ++ c = a ++ (b ++ c).
Proof. induction a as [|x a IH]; simpl; [reflexivity | now rewrite IH]. Qed.

Lemma forallb_app p (a b : string) :
  Str.forallb p (a ++ b) = Str.forallb p a && Str.forallb p b.
Proof.
  induction a as [|x a IH]; simpl; [reflexivity |].
  now rewrite IH, andb_assoc.
Qed.

Lemma forallb_impl (p q : ascii -> bool) (s : string) :
  (forall c, p c = true -> q c = true) ->
  Str.forallb p s = true -> Str.forallb q s = true.
Proof.
  intros Hpq; induction s as [|c s IH]; simpl; [reflexivity |].
  intros H; apply andb_true_iff in H as [Hc Hs].
  now rewrite (Hpq _ Hc), IH.
Qed.

Lemma filter_id p (s : string) : Str.forallb p s = true -> Str.filter p s = s.
Proof.
  induction s as [|c s IH]; simpl; [reflexivity |].
  intros H; apply andb_true_iff in H as [Hc Hs].
  now rewrite Hc, IH.
Qed.

Lemma lacks_app c (a b : string) :
  Str.lacks c (a ++ b) = Str.lacks c a && Str.lacks c b.
Proof. apply forallb_app. Qed.

(** ** Verbatim texts *)

Lemma verbatim_parts s :
  verbatim s = true ->
  Str.forallb printable s = true /\ Str.lacks "[" s = true /\ Str.lacks ":" s = true.
Proof.
  unfold verbatim; intros H.
  apply andb_true_iff in H as [H H3]; apply andb_true_iff in H as [H1 H2]; auto.
Qed.

Lemma verbatim_app a b : verbatim (a ++ b) = true <-> verbatim a = true /\ verbatim b = true.
Proof.
  unfold verbatim; rewrite forallb_app, !lacks_app.
  rewrite !andb_true_iff; tauto.
Qed.

Lemma printable_not_control c : printable c = true -> negb (Rich.control_code c) = true.
Proof.
  unfold printable, Rich.control_code; cbv zeta.
  generalize (nat_of_ascii c); intros n H.
  apply andb_true_iff in H as [H _]; apply Nat.leb_le in H.
  rewrite negb_true_iff, !orb_false_iff, !Nat.eqb_neq; lia.
Qed.

Lemma printable_not_newline c :
  printable c = true -> negb (Ascii.eqb c (ascii_of_nat 10)) = true.
Proof.
  intros H; rewrite negb_true_iff; apply Ascii.eqb_neq; intros ->.
  discriminate H.
Qed.

Lemma strip_control_codes_id s :
  Str.forallb printable s = true -> Rich.strip_control_codes s = s.
Proof.
  intros H; apply filter_id.
  exact (forallb_impl _ _ s printable_not_control H).
Qed.

Lemma split_lines_single s :
  Str.forallb printable s = true -> Rich.split_lines s = [s].
Proof.
  induction s as [|c s IH]; simpl; [reflexivity |].
  intros H; apply andb_true_iff in H as [Hc Hs].
  apply printable_not_newline, negb_true_iff in Hc.
  now rewrite Hc, IH.
Qed.

Lemma emoji_replace_id E s : Str.lacks ":" s = true -> Rich.emoji_replace E s = s.
Proof.
  unfold Rich.emoji_replace.
  induction s as [|c s IH]; simpl; [reflexivity |].
  intros H; apply andb_true_iff in H as [Hc Hs].
  apply negb_true_iff in Hc.
  now rewrite Hc, IH.
Qed.

Lemma unescape_id s : Str.lacks "[" s = true -> Rich.unescape s = s.
Proof.
  induction s as [|c s IH]; [reflexivity |].
  intros H; simpl in H; apply andb_true_iff in H as [Hc Hs].
  specialize (IH Hs).
  destruct s as [|d s'].
  - simpl. destruct c as [[] [] [] [] [] [] [] []]; reflexivity.
  - simpl in Hs; apply andb_true_iff in Hs as [Hd _].
    apply negb_true_iff, Ascii.eqb_neq in Hd.
    change (Rich.unescape (String c (String d s')))
      with (match c, d with
            | "\"%char, "["%char => String "[" (Rich.unescape s')
            | _, _ => String c (Rich.unescape (String d s'))
            end).
    rewrite IH.
    destruct c as [[] [] [] [] [] [] [] []]; try reflexivity.
    destruct d as [[] [] [] [] [] [] [] []]; try reflexivity.
    now elim Hd.
Qed.

(** The text a verbatim markup-free part contributes to a rendering. *)
Lemma plain_text_id E s :
  verbatim s = true ->
  Rich.strip_control_codes (Rich.emoji_replace E (Rich.unescape s)) = s.
Proof.
  intros H; apply verbatim_parts in H as (Hp & Hb & Hc).
  now rewrite unescape_id, emoji_replace_id, strip_control_codes_id.
Qed.

(** ** Markup *)

(** A text without an opening bracket, followed by a character that is
    neither a bracket nor a backslash, starts no tag. *)
Lemma span_backslashes_stop (t : string) (c : ascii) (r : string) :
  Str.lacks "[" t = true -> c <> "["%char -> c <> "\"%char ->
  exists n x y, Rich.span_backslashes (t ++ String c r) = (n, String x y)
                /\ x <> "["%char.
Proof.
  intros Ht Hc1 Hc2.
  induction t as [|a t IH].
  - exists O, c, r; split; [|assumption].
    simpl. destruct c as [[] [] [] [] [] [] [] []]; try reflexivity. now elim Hc2.
  - simpl in Ht; apply andb_true_iff in Ht as [Ha Ht].
    apply negb_true_iff, Ascii.eqb_neq in Ha.
    destruct (IH Ht) as (n & x & y & E & Hx).
    destruct (Ascii.eqb_spec a "\"%char) as [-> | Hne].
    + exists (S n), x, y; split; [|assumption].
      simpl; now rewrite E.
    + exists O, a, (t ++ String c r); split; [|assumption].
      simpl. destruct a as [[] [] [] [] [] [] [] []]; try reflexivity. now elim Hne.
Qed.

Lemma match_tag_none (t : string) (c : ascii) (r : string) :
  Str.lacks "[" t = true -> c <> "["%char -> c <> "\"%char ->
  Rich.match_tag (t ++ String c r) = None.
Proof.
  intros Ht Hc1 Hc2.
  destruct (span_backslashes_stop t c r Ht Hc1 Hc2) as (n & x & y & E & Hx).
  unfold Rich.match_tag; rewrite E.
  destruct x as [[] [] [] [] [] [] [] []]; try reflexivity. now elim Hx.
Qed.

Lemma parse_plain (t : string) (c : ascii) (r plain : string) :
  Str.lacks "[" t = true -> c <> "["%char -> c <> "\"%char ->
  Rich.parse_from 0 plain (t ++ String c r)
  = Rich.parse_from 0 (plain ++ t) (String c r).
Proof.
  intros Ht Hc1 Hc2; revert plain.
  induction t as [|a t IH]; intros plain.
  - now rewrite app_nil_r.
  - pose proof (match_tag_none (String a t) c r Ht Hc1 Hc2) as E.
    simpl in Ht; apply andb_true_iff in Ht as [_ Ht].
    change (Rich.parse_from 0 plain (String a t ++ String c r))
      with (match Rich.match_tag (String a t ++ String c r) with
            | Some (escapes, tag_text) =>
                (Rich.flush plain ++ Rich.tag_tokens escapes tag_text
                 ++ Rich.parse_from (escapes + String.length tag_text + 1) ""
                      (t ++ String c r))%list
            | None => Rich.parse_from 0 (plain ++ String a "") (t ++ String c r)
            end).
    rewrite E, (IH Ht), app_assoc. reflexivity.
Qed.

Lemma parse_hello (name : string) :
  Str.lacks "[" name = true ->
  Rich.parse ("[bold green]Hello, " ++ name ++ "![/bold green]")
  = [tag "bold green"; Rich.Plain ("Hello, " ++ name ++ "!"); tag "/bold green"].
Proof.
  intros H. unfold Rich.parse. cbn.
  rewrite (parse_plain name "!" "[/bold green]" "Hello, " H) by discriminate.
  cbn. rewrite app_assoc. reflexivity.
Qed.

(** A text between a tag and its closing tag renders as the text alone. *)
Lemma render_tagged env (name text : string) :
  Str.starts_with "/" name = false ->
  (exists c r, Py.strip name = String c r) ->
  Py.strip name = name ->
  Rich.render_tokens env [tag name; Rich.Plain text; tag (String "/" name)] "" []
  = inr (Rich.strip_control_codes (Rich.emoji_replace (EMOJI env) (Rich.unescape text))).
Proof.
  intros Hopen (c & r & Hne) Hstrip.
  cbn [Rich.render_tokens tag Rich.tag_name Rich.tag_parameters Str.starts_with Str.tail].
  rewrite Hopen, Ascii.eqb_refl, Hne, <- Hne, Hstrip.
  cbn [Rich.pop_style Rich.tag_name].
  rewrite String.eqb_refl.
  unfold Rich.close_tag; cbn [Rich.tag_name Rich.tag_parameters].
  destruct (Str.starts_with "@" (style_normalize env name)); reflexivity.
Qed.

Lemma render_hello env (name : string) :
  verbatim name = true ->
  Rich.render env ("[bold green]Hello, " ++ name ++ "![/bold green]")
  = inr ("Hello, " ++ name ++ "!").
Proof.
  intros H.
  assert (Hv : verbatim ("Hello, " ++ name ++ "!") = true).
  { apply verbatim_app; split; [reflexivity |].
    apply verbatim_app; split; [assumption | reflexivity]. }
  unfold Rich.render.
  change (Str.mem "[" ("[bold green]Hello, " ++ name ++ "![/bold green]")) with true.
  cbn [negb].
  rewrite parse_hello by (now apply verbatim_parts in H).
  rewrite (render_tagged env "bold green");
    [now rewrite plain_text_id | reflexivity | now exists "b"%char, "old green" | reflexivity].
Qed.

Lemma render_untagged env (text : string) :
  verbatim text = true -> Rich.render env text = inr text.
Proof.
  intros H. unfold Rich.render, Str.mem.
  pose proof (verbatim_parts _ H) as (Hp & Hb & Hc).
  rewrite Hb; cbn [negb].
  now rewrite emoji_replace_id, strip_control_codes_id.
Qed.

Lemma render_no_items env :
  Rich.render env "[yellow]No items provided![/yellow]" = inr "No items provided!".
Proof.
  unfold Rich.render.
  change (Str.mem "[" "[yellow]No items provided![/yellow]") with true.
  change (Rich.parse "[yellow]No items provided![/yellow]")
    with [tag "yellow"; Rich.Plain "No items provided!"; tag "/yellow"].
  cbn [negb].
  rewrite (render_tagged env "yellow");
    [reflexivity | reflexivity | now exists "y"%char, "ellow" | reflexivity].
Qed.

Lemma render_items_header env :
  Rich.render env "[bold]Items:[/bold]" = inr "Items:".
Proof.
  unfold Rich.render.
  change (Str.mem "[" "[bold]Items:[/bold]") with true.
  change (Rich.parse "[bold]Items:[/bold]")
    with [tag "bold"; Rich.Plain "Items:"; tag "/bold"].
  cbn [negb].
  rewrite (render_tagged env "bold");
    [reflexivity | reflexivity | now exists "b"%char, "old" | reflexivity].
Qed.

(** ** Decimal literals *)

Lemma digits_num_char (d : uint) :
  Str.forallb num_char (NilEmpty.string_of_uint d) = true.
Proof. induction d; simpl; auto. Qed.

Lemma str_num_char (n : Z) : Str.forallb num_char (Py.str n) = true.
Proof.
  unfold Py.str, NilZero.string_of_int, NilZero.string_of_uint.
  destruct n as [|p|p]; simpl; [reflexivity | |].
  - pose proof (digits_num_char (Pos.to_uint p)).
    now destruct (Pos.to_uint p).
  - pose proof (digits_num_char (Pos.to_uint p)).
    now destruct (Pos.to_uint p).
Qed.

Lemma num_char_verbatim (s : string) :
  Str.forallb num_char s = true -> verbatim s = true.
Proof.
  intros H. unfold verbatim, Str.lacks.
  rewrite !andb_true_iff; repeat split;
    (eapply forallb_impl; [|exact H]); intros c Hc; by_cases_on c.
Qed.

Lemma num_char_ascii (s : string) :
  Str.forallb num_char s = true -> Py.is_ascii s = true.
Proof.
  intros H. unfold Py.is_ascii.
  (eapply forallb_impl; [|exact H]); intros c Hc; by_cases_on c.
Qed.

Lemma lstrip_id space (s : string) :
  Str.forallb (fun c => negb (space c)) s = true -> Py.lstrip space s = s.
Proof.
  destruct s as [|c s]; simpl; [reflexivity |].
  intros H; apply andb_true_iff in H as [Hc _].
  apply negb_true_iff in Hc. now rewrite Hc.
Qed.

Lemma rstrip_id space (s : string) :
  Str.forallb (fun c => negb (space c)) s = true -> Py.rstrip space s = s.
Proof.
  induction s as [|c s IH]; simpl; [reflexivity |].
  intros H; apply andb_true_iff in H as [Hc Hs].
  apply negb_true_iff in Hc. rewrite (IH Hs), Hc.
  now destruct s.
Qed.

Lemma num_char_no_space (s : string) :
  Str.forallb num_char s = true ->
  Str.forallb (fun c => negb (Py.c_isspace c)) s = true.
Proof.
  intros H. (eapply forallb_impl; [|exact H]); intros c Hc; by_cases_on c.
Qed.

Lemma int_digits_cons (c : ascii) (r : string) (d : uint -> uint) :
  Py.digit_of c = Some d ->
  (exists x y, r = String x y /\ x <> "_"%char) ->
  Py.int_digits (String c r) = option_map d (Py.int_digits r).
Proof.
  intros Hd (x & y & -> & Hx).
  change (Py.int_digits (String c (String x y)))
    with (match Py.digit_of c with
          | None => None
          | Some d =>
              match x with
              | "_"%char => option_map d (Py.int_digits y)
              | _ => option_map d (Py.int_digits (String x y))
              end
          end).
  rewrite Hd. by_cases_on x. now elim Hx.
Qed.

Lemma int_digits_of_uint (d : uint) :
  d <> Nil -> Py.int_digits (NilEmpty.string_of_uint d) = Some d.
Proof.
  induction d as [|d IH|d IH|d IH|d IH|d IH|d IH|d IH|d IH|d IH|d IH];
    intros H; [congruence | ..]; clear H;
    (destruct (uint_eq_dec d Nil) as [-> | Hne]; [reflexivity |]);
    cbn [NilEmpty.string_of_uint];
    (erewrite int_digits_cons;
     [ rewrite (IH Hne); reflexivity
     | reflexivity
     | destruct d; [congruence | ..]; cbn [NilEmpty.string_of_uint];
       eexists _, _; (split; [reflexivity | discriminate]) ]).
Qed.

Lemma nb_digits_length (d : uint) :
  String.length (NilEmpty.string_of_uint d) = nb_digits d.
Proof. induction d; simpl; congruence. Qed.

(** The digits of [str(n)] are those of the decimal notation of [|n|]. *)
Lemma str_digits_nb (p : positive) :
  Py.str_digits (Z.pos p) = nb_digits (Pos.to_uint p)
  /\ Py.str_digits (Z.neg p) = nb_digits (Pos.to_uint p).
Proof.
  unfold Py.str_digits, Py.str. cbn [Z.abs Z.to_int].
  unfold NilZero.string_of_int, NilZero.string_of_uint.
  pose proof (Unsigned.to_uint_nonnil p) as Hnil.
  pose proof (nb_digits_length (Pos.to_uint p)) as E.
  destruct (Pos.to_uint p); [congruence | ..]; now rewrite E.
Qed.

Lemma int_literal_of_uint (d : uint) :
  d <> Nil -> nb_digits d <= Py.max_str_digits ->
  Py.int_literal (NilEmpty.string_of_uint d) = Some d.
Proof.
  intros Hnil Hd. unfold Py.int_literal.
  rewrite (int_digits_of_uint _ Hnil).
  apply Nat.leb_le in Hd. now rewrite Hd.
Qed.

Lemma int_ascii_str (n : Z) :
  Py.str_digits n <= Py.max_str_digits -> Py.int_ascii (Py.str n) = Some n.
Proof.
  intros Hd. unfold Py.int_ascii.
  rewrite lstrip_id, rstrip_id by apply num_char_no_space, str_num_char.
  destruct n as [|p|p]; [reflexivity | |];
    [ rewrite (proj1 (str_digits_nb p)) in Hd
    | rewrite (proj2 (str_digits_nb p)) in Hd ];
    unfold Py.str, NilZero.string_of_int, NilZero.string_of_uint;
    cbn [Z.to_int].
  - pose proof (Unsigned.to_uint_nonnil p) as Hnil.
    pose proof (int_literal_of_uint _ Hnil Hd) as E.
    pose proof (Unsigned.of_to p) as Hp.
    assert (Hz : Z.of_uint (Pos.to_uint p) = Z.pos p)
      by (unfold Z.of_uint; now rewrite Hp).
    destruct (Pos.to_uint p) eqn:Eu; [congruence | ..];
      cbn [NilEmpty.string_of_uint] in *; cbv iota beta;
      rewrite E; cbn [option_map]; now rewrite Hz.
  - pose proof (Unsigned.to_uint_nonnil p) as Hnil.
    pose proof (int_literal_of_uint _ Hnil Hd) as E.
    pose proof (Unsigned.of_to p) as Hp.
    assert (Hz : Z.of_uint (Pos.to_uint p) = Z.pos p)
      by (unfold Z.of_uint; now rewrite Hp).
    destruct (Pos.to_uint p) eqn:Eu; [congruence | ..];
      cbn [NilEmpty.string_of_uint] in *; cbv iota beta;
      rewrite E; cbn [option_map]; now rewrite Hz.
Qed.

(** [int(str(n)) == n], for an [n] within the limit on the digits. *)
Lemma int_str non_ascii (n : Z) :
  Py.str_digits n <= Py.max_str_digits -> Py.int non_ascii (Py.str n) = Some n.
Proof.
  intros Hd. unfold Py.int.
  rewrite (num_char_ascii _ (str_num_char n)).
  now apply int_ascii_str.
Qed.

Lemma string_of_zeros (k : nat) :
  NilEmpty.string_of_uint (Nat.iter k D0 Nil) = Str.repeat "0" k.
Proof.
  induction k as [|k IH]; [reflexivity |].
  change (Nat.iter (S k) D0 Nil) with (D0 (Nat.iter k D0 Nil)).
  cbn [NilEmpty.string_of_uint Str.repeat]. now rewrite IH.
Qed.

Lemma length_repeat (c : ascii) (k : nat) :
  String.length (Str.repeat (String c "") k) = k.
Proof. induction k as [|k IH]; cbn; [reflexivity | now rewrite IH]. Qed.

(** [str] of the integer written as a one and [k] zeros, and of its
    opposite. *)
Lemma str_one_and_zeros (k : nat) :
  Py.str (Z.of_uint (one_and_zeros k)) = String "1" (Str.repeat "0" k).
Proof.
  unfold Py.str.
  change (Z.of_uint (one_and_zeros k)) with (Z.of_int (Pos (one_and_zeros k))).
  rewrite DecimalZ.to_of. unfold one_and_zeros.
  cbn [norm unorm nzhead NilZero.string_of_int NilZero.string_of_uint
       NilEmpty.string_of_uint].
  now rewrite string_of_zeros.
Qed.

Lemma str_minus_one_and_zeros (k : nat) :
  Py.str (- Z.of_uint (one_and_zeros k)) = String "-" (String "1" (Str.repeat "0" k)).
Proof.
  unfold Py.str.
  change (- Z.of_uint (one_and_zeros k))%Z with (Z.of_int (Neg (one_and_zeros k))).
  rewrite DecimalZ.to_of. unfold one_and_zeros.
  cbn [norm unorm nzhead NilZero.string_of_int NilZero.string_of_uint
       NilEmpty.string_of_uint].
  now rewrite string_of_zeros.
Qed.

Lemma over_limit_pos : (0 < over_limit)%Z.
Proof. unfold over_limit, one_and_zeros. cbn [Z.of_uint Pos.of_uint Z.of_N]. lia. Qed.

Lemma over_limit_digits :
  Py.max_str_digits < Py.str_digits over_limit
  /\ Py.max_str_digits < Py.str_digits (- over_limit).
Proof.
  pose proof over_limit_pos as Hpos.
  unfold Py.str_digits.
  rewrite Z.abs_opp, Z.abs_eq by lia.
  unfold over_limit. rewrite str_one_and_zeros.
  cbn [String.length]. rewrite length_repeat. split; apply Nat.lt_succ_diag_r.
Qed.

(** [int] refuses [str(n)] for an [n] beyond the limit. *)
Lemma int_str_over_limit non_ascii (n : Z) :
  Py.max_str_digits < Py.str_digits n -> Py.int non_ascii (Py.str n) = None.
Proof.
  intros Hd. unfold Py.int, Py.int_ascii.
  rewrite (num_char_ascii _ (str_num_char n)).
  rewrite lstrip_id, rstrip_id by apply num_char_no_space, str_num_char.
  assert (Hlit : forall d, d <> Nil -> Py.max_str_digits < nb_digits d ->
                           Py.int_literal (NilEmpty.string_of_uint d) = None).
  { intros d Hnil Hlt. unfold Py.int_literal.
    rewrite (int_digits_of_uint _ Hnil).
    apply Nat.leb_gt in Hlt. now rewrite Hlt. }
  destruct n as [|p|p];
    [ exfalso; revert Hd; apply Nat.le_ngt, Nat.leb_le; reflexivity
    | rewrite (proj1 (str_digits_nb p)) in Hd
    | rewrite (proj2 (str_digits_nb p)) in Hd ];
    unfold Py.str, NilZero.string_of_int, NilZero.string_of_uint;
    cbn [Z.to_int];
    pose proof (Unsigned.to_uint_nonnil p) as Hnil;
    pose proof (Hlit _ Hnil Hd) as E;
    (destruct (Pos.to_uint p) eqn:Eu; [congruence | ..]);
    cbn [NilEmpty.string_of_uint] in *; cbv iota beta;
    now rewrite E.
Qed.

(** ** Printing *)

Lemma write_nil w : write [] w = w.
Proof. destruct w; unfold write; simpl. now rewrite List.app_nil_r. Qed.

Lemma write_app a b w : write b (write a w) = write (a ++ b)%list w.
Proof. unfold write; simpl. now rewrite List.app_assoc. Qed.

Lemma printable_fits (text : string) :
  Str.forallb printable text = true ->
  String.length text <= Rich.console_width ->
  Rich.fits text = true.
Proof.
  intros Hp Hw. unfold Rich.fits.
  apply Nat.leb_le in Hw. rewrite Hw. cbn [andb].
  unfold Str.lacks. (eapply forallb_impl; [|exact Hp]); intros c Hc; by_cases_on c.
Qed.

(** A printable text no wider than the console is printed on one line. *)
Lemma console_print_line env (markup text : string) (w : World) :
  Rich.render env markup = inr text ->
  Str.forallb printable text = true ->
  String.length text <= Rich.console_width ->
  console_print env markup w = (write [Line text] w, inr tt).
Proof.
  intros Hr Hp Hw. unfold console_print. rewrite Hr.
  rewrite split_lines_single by assumption.
  cbn [flat_map]. unfold Rich.lay_out.
  now rewrite (printable_fits _ Hp Hw).
Qed.

Lemma for_each_write {A} (f : A -> list Output) (body : A -> M unit) (xs : list A) :
  Forall (fun x => forall w, body x w = (write (f x) w, inr tt)) xs ->
  forall w, for_each xs body w = (write (flat_map f xs) w, inr tt).
Proof.
  induction 1 as [|x xs Hx _ IH]; intros w; simpl.
  - now rewrite write_nil.
  - unfold bind. now rewrite Hx, IH, write_app.
Qed.

Lemma flat_map_repeat {A B} (f : A -> list B) (x : A) (y : B) (n : nat) :
  f x = [y] -> flat_map f (List.repeat x n) = List.repeat y n.
Proof. intros E. induction n; simpl; [reflexivity | now rewrite E, IHn]. Qed.

Lemma hello_lines env (name : string) (count : Z) (w : World) :
  verbatim name = true ->
  String.length ("Hello, " ++ name ++ "!") <= Rich.console_width ->
  hello env name count w
  = (write (List.repeat (Line ("Hello, " ++ name ++ "!")) (Z.to_nat count)) w, inr tt).
Proof.
  intros H Hw. unfold hello, for_range, Py.range_len.
  rewrite (for_each_write (fun _ => [Line ("Hello, " ++ name ++ "!")])).
  - now rewrite (flat_map_repeat _ tt (Line ("Hello, " ++ name ++ "!"))).
  - apply Forall_forall. intros _ _ w'.
    apply console_print_line; [now apply render_hello | | assumption].
    assert (Hv : verbatim ("Hello, " ++ name ++ "!") = true).
    { apply verbatim_app; split; [reflexivity |].
      apply verbatim_app; split; [assumption | reflexivity]. }
    now apply verbatim_parts in Hv.
Qed.

(** ** The subcommands *)

Lemma hello_with_count env (count_text : string) (n : Z) :
  Py.int (int_non_ascii env) count_text = Some n ->
  main env ["hello"; "--count"; count_text]
  = {| exit_code := 0;
       streams := {| stdout := List.repeat (Line "Hello, World!") (Z.to_nat n);
                     stderr := [];
                     called := [Hello] |} |}.
Proof.
  intros Hn. run_main. rewrite Hn. cbn -[hello].
  now rewrite hello_lines by (reflexivity || fits_console).
Qed.

(** A count beyond the limit on the digits is refused by the parser. *)
Lemma hello_count_beyond_limit env (n : Z) :
  Py.max_str_digits < Py.str_digits n ->
  main env ["hello"; "--count"; Py.str n]
  = {| exit_code := 2;
       streams := {| stdout := [];
                     stderr := [UsagePage (Sub Hello);
                                ErrorMessage (Click.BadParameter "--count" (Py.str n))];
                     called := [] |} |}.
Proof.
  intros Hd. run_main. now rewrite (int_str_over_limit _ _ Hd).
Qed.

(** C2, as amended: for every non-negative [n] written with at most 4300
    digits, [hello --count n] prints exactly [n] lines, each
    [Hello, World!], and exits with status 0; none for [n = 0]. *)
Theorem hello_count_lines env (n : Z) :
  (0 <= n)%Z ->
  Py.str_digits n <= Py.max_str_digits ->
  main env ["hello"; "--count"; Py.str n]
  = {| exit_code := 0;
       streams := {| stdout := List.repeat (Line "Hello, World!") (Z.to_nat n);
                     stderr := [];
                     called := [Hello] |} |}.
Proof. intros _ Hd. now apply hello_with_count, int_str. Qed.

(** C10, as amended: for every negative [n] written with at most 4300
    digits, [hello --count n] is accepted: nothing is printed, nothing is
    reported, and the exit status is 0. *)
Theorem hello_negative_count env (n : Z) :
  (n < 0)%Z ->
  Py.str_digits n <= Py.max_str_digits ->
  main env ["hello"; "--count"; Py.str n]
  = {| exit_code := 0;
       streams := {| stdout := []; stderr := []; called := [Hello] |} |}.
Proof.
  intros Hn Hd. rewrite (hello_with_count env _ n) by now apply int_str.
  destruct n; try lia. reflexivity.
Qed.

(** C3: when the value of [--count] is not an integer literal, the run
    ends in the parser: a usage error for [--count] on the error stream,
    status 2, nothing on the output stream and the callback not entered;
    the same when the value is attached with [=]. *)
Theorem hello_count_not_integer env (s : string) :
  Py.int (int_non_ascii env) s = None ->
  let failed :=
    {| exit_code := 2;
       streams := {| stdout := [];
                     stderr := [UsagePage (Sub Hello);
                                ErrorMessage (Click.BadParameter "--count" s)];
                     called := [] |} |} in
  main env ["hello"; "--count"; s] = failed
  /\ main env ["hello"; "--count=" ++ s] = failed.
Proof.
  intros Hs failed; subst failed.
  split; run_main; now rewrite Hs.
Qed.

(** C4, as amended: for every printable [s] without [[] and without [:],
    whose greeting [Hello, s!] is no wider than the console (80 columns),
    [hello --name s] prints the one line [Hello, s!] and exits with
    status 0. *)
Theorem hello_name_line env (s : string) :
  verbatim s = true ->
  String.length ("Hello, " ++ s ++ "!") <= Rich.console_width ->
  main env ["hello"; "--name"; s]
  = {| exit_code := 0;
       streams := {| stdout := [Line ("Hello, " ++ s ++ "!")];
                     stderr := [];
                     called := [Hello] |} |}.
Proof.
  intros Hs Hw. run_main. now rewrite hello_lines.
Qed.

(** C6: [list-items] without arguments prints the one line
    [No items provided!] and exits with status 0. *)
Theorem list_items_none env :
  main env ["list-items"]
  = {| exit_code := 0;
       streams := {| stdout := [Line "No items provided!"];
                     stderr := [];
                     called := [ListItems] |} |}.
Proof.
  run_main. unfold list_items.
  now rewrite (console_print_line env _ "No items provided!")
    by first [apply render_no_items | reflexivity | fits_console].
Qed.

(** ** Positional arguments *)

Lemma not_option_not_dashes (arg : string) :
  Click.is_option_token arg = false -> String.eqb arg "--" = false.
Proof.
  intros H. apply String.eqb_neq. intros ->. discriminate H.
Qed.

Lemma add_largs_cons x r st :
  Click.add_largs r (Click.add_largs [x] st) = Click.add_largs (x :: r) st.
Proof. unfold Click.add_largs; simpl. now rewrite <- List.app_assoc. Qed.

(** Where arguments may be interspersed, tokens that are not options are
    all kept as arguments. *)
Lemma process_positional options (items : list string) st :
  Forall (fun item => Click.is_option_token item = false) items ->
  Click.process_args options true items st = inr (Click.add_largs items st).
Proof.
  intros H; revert st.
  induction H as [|x r Hx _ IH]; intros st.
  - unfold Click.add_largs; simpl. rewrite List.app_nil_r. now destruct st.
  - cbn [Click.process_args].
    now rewrite (not_option_not_dashes _ Hx), Hx, IH, add_largs_cons.
Qed.

Lemma enumerate_seq {A} (items : list A) (k : nat) :
  Py.enumerate items (Z.of_nat k)
  = combine (map Z.of_nat (seq k (List.length items))) items.
Proof.
  revert k; induction items as [|x r IH]; intros k; simpl; [reflexivity |].
  f_equal. rewrite <- IH. f_equal. lia.
Qed.

Lemma item_line env (i : Z) (item : string) (w : World) :
  verbatim item = true ->
  String.length ("  " ++ Py.str i ++ ". " ++ item) <= Rich.console_width ->
  console_print env ("  " ++ Py.str i ++ ". " ++ item) w
  = (write [Line ("  " ++ Py.str i ++ ". " ++ item)] w, inr tt).
Proof.
  intros H Hw.
  assert (Hv : verbatim ("  " ++ Py.str i ++ ". " ++ item) = true).
  { apply verbatim_app; split; [reflexivity |].
    apply verbatim_app; split; [apply num_char_verbatim, str_num_char |].
    apply verbatim_app; split; [reflexivity | assumption]. }
  apply console_print_line; [now apply render_untagged | | assumption].
  now apply verbatim_parts in Hv.
Qed.

(** The items with their numbers, each printable as it is and its line no
    wider than the console. *)
Lemma items_fit_enumerate (items : list string) (k : nat) :
  Forall (fun item => verbatim item = true) items ->
  Forall (fun '(i, item) =>
            String.length ("  " ++ Py.str (Z.of_nat i) ++ ". " ++ item)
            <= Rich.console_width)
         (combine (seq k (List.length items)) items) ->
  Forall (fun '(i, item) =>
            verbatim item = true
            /\ String.length ("  " ++ Py.str i ++ ". " ++ item) <= Rich.console_width)
         (Py.enumerate items (Z.of_nat k)).
Proof.
  intros Hv; revert k.
  induction Hv as [|x r Hx _ IH]; intros k Hw; cbn [Py.enumerate]; constructor.
  - split; [assumption |]. now inversion Hw.
  - replace (Z.of_nat k + 1)%Z with (Z.of_nat (S k)) by lia.
    apply IH. now inversion Hw.
Qed.

Lemma list_items_lines env (items : list string) (w : World) :
  items <> [] ->
  Forall (fun '(i, item) =>
            verbatim item = true
            /\ String.length ("  " ++ Py.str i ++ ". " ++ item) <= Rich.console_width)
         (Py.enumerate items 1) ->
  list_items env items w
  = (write (Line "Items:"
            :: map (fun '(i, item) => Line ("  " ++ Py.str i ++ ". " ++ item))
                 (Py.enumerate items 1)) w,
     inr tt).
Proof.
  intros Hne Hv. unfold list_items.
  destruct items as [|x r]; [congruence |].
  unfold bind at 1.
  rewrite (console_print_line env _ "Items:")
    by first [apply render_items_header | reflexivity | fits_console].
  rewrite (for_each_write
             (fun '(i, item) => [Line ("  " ++ Py.str i ++ ". " ++ item)])).
  - rewrite write_app. do 2 f_equal.
    generalize (Py.enumerate (x :: r) 1); intros l.
    cbn [List.app]. f_equal.
    induction l as [|[i item] l IH]; cbn [flat_map map List.app];
      [reflexivity | now rewrite IH].
  - eapply Forall_impl; [|exact Hv].
    intros [i item] [Hi Hw] w'. now apply item_line.
Qed.

(** C5, as amended: for every non-empty sequence of items, each of them
    printable, without [[] and [:], and not read as an option (not
    starting with [-], or [-] alone), and the line of each no wider than
    the console (80 columns), [list-items] prints the header [Items:]
    and then one line per item, in the order given, numbered from 1 and
    formatted as two spaces, the number, a period, a space and the item;
    the exit status is 0. *)
Theorem list_items_numbered env (items : list string) :
  items <> [] ->
  Forall (fun item => Click.is_option_token item = false /\ verbatim item = true) items ->
  Forall (fun '(i, item) =>
            String.length ("  " ++ Py.str (Z.of_nat i) ++ ". " ++ item)
            <= Rich.console_width)
         (combine (seq 1 (List.length items)) items) ->
  main env ("list-items" :: items)
  = {| exit_code := 0;
       streams :=
         {| stdout :=
              Line "Items:"
              :: map (fun '(i, item) => Line ("  " ++ Py.str (Z.of_nat i) ++ ". " ++ item))
                   (combine (seq 1 (List.length items)) items);
            stderr := [];
            called := [ListItems] |} |}.
Proof.
  intros Hne H Hw.
  assert (Hopt : Forall (fun item => Click.is_option_token item = false) items)
    by (eapply Forall_impl; [|exact H]; now intros a [? ?]).
  assert (Hv : Forall (fun item => verbatim item = true) items)
    by (eapply Forall_impl; [|exact H]; now intros a [? ?]).
  run_main. unfold list_items_command, parse_args.
  rewrite (process_positional _ _ _ Hopt). cbn -[list_items].
  rewrite (list_items_lines env items _ Hne (items_fit_enumerate items 1 Hv Hw)).
  unfold standalone, write. cbn [stdout stderr called List.app].
  do 3 f_equal.
  change 1%Z with (Z.of_nat 1). rewrite enumerate_seq.
  generalize (seq 1 (List.length items)); intros l. clear.
  revert items; induction l as [|k l IH]; intros [|x r]; try reflexivity.
  cbn [map combine]. now rewrite IH.
Qed.

(** ** The group *)

Lemma process_group_flags (flags rest : list string) st :
  Forall (fun arg => arg = "--version" \/ arg = "--help") flags ->
  ends_options rest ->
  exists st', Click.process_args group_options false (flags ++ rest) st = inr st'
              /\ Click.order st' = (Click.order st ++ flags)%list.
Proof.
  intros Hflags Hrest; revert st.
  induction Hflags as [|flag flags Hflag _ IH]; intros st.
  - cbn [List.app]. rewrite List.app_nil_r.
    destruct rest as [|arg rest]; [now exists st |].
    cbn [Click.process_args].
    destruct (String.eqb_spec arg "--") as [-> | Hne].
    + now eexists.
    + destruct Hrest as [-> | Hopt]; [congruence |].
      rewrite Hopt. now eexists.
  - destruct (IH (Click.store (if String.eqb flag "--version"
                                then Click.version_option
                                else Click.help_option) "" st))
      as (st' & E & Ho).
    exists st'. split.
    + destruct Hflag as [-> | ->]; exact E.
    + rewrite Ho. destruct Hflag as [-> | ->]; cbn; now rewrite <- List.app_assoc.
Qed.

(** C7, as amended: when the arguments start with [--version] and the
    options of the group that follow it are only [--version] or [--help],
    the version message is printed and the run ends with status 0, no
    subcommand entered, whatever comes after the options of the group. *)
Theorem version_first env (flags rest : list string) :
  Forall (fun arg => arg = "--version" \/ arg = "--help") flags ->
  ends_options rest ->
  main env ("--version" :: flags ++ rest)
  = {| exit_code := 0;
       streams := {| stdout := [Line (prog_name env ++ ", version 0.1.0")];
                     stderr := [];
                     called := [] |} |}.
Proof.
  intros Hflags Hrest.
  destruct (process_group_flags ("--version" :: flags) rest Click.initial)
    as (st' & E & Ho); [now constructor; [left |] | assumption |].
  unfold main, main_parse_args, parse_args.
  change ("--version" :: flags ++ rest)%list with (("--version" :: flags) ++ rest)%list.
  unfold bind at 1 2 3. cbn [ret].
  rewrite E, Ho. reflexivity.
Qed.

Lemma plain_name_positional (name : string) :
  plain_name name = true ->
  String.eqb name "--" = false
  /\ Click.is_option_token name = false
  /\ Click.has_opt_prefix name = false.
Proof.
  destruct name as [|c r]; [now repeat split |].
  unfold plain_name, Click.has_opt_prefix. intros H; rewrite H.
  by_cases_on c; now repeat split.
Qed.

Lemma group_positional env (name : string) (args : list string) (w : World) :
  Click.is_option_token name = false ->
  main_parse_args env (name :: args) w
  = (w, inr (Click.largs Click.initial ++ name :: args)%list).
Proof.
  intros H. unfold main_parse_args, parse_args.
  cbn [Click.process_args].
  rewrite (not_option_not_dashes _ H), H.
  reflexivity.
Qed.

(** C8, as amended.  A first token that starts with a letter or a digit
    and names no subcommand is a usage error: usage and error on the error
    stream, status 2, no subcommand entered.  Started without arguments,
    the program shows its help page and enters no subcommand; the status
    is that of the click release: 0, with the page on the output stream,
    up to 8.1, and 2, with the page on the error stream, from 8.2. *)
Theorem unknown_or_missing_subcommand env :
  (forall name args,
      plain_name name = true -> get_command name = None ->
      main env (name :: args)
      = {| exit_code := 2;
           streams := {| stdout := [];
                         stderr := [UsagePage Group;
                                    ErrorMessage (Click.NoSuchCommand name)];
                         called := [] |} |})
  /\ main env []
     = match click_release env with
       | Click_8_1 =>
           {| exit_code := 0;
              streams := {| stdout := [HelpPage Group]; stderr := []; called := [] |} |}
       | Click_8_2 =>
           {| exit_code := 2;
              streams := {| stdout := []; stderr := [HelpPage Group]; called := [] |} |}
       end.
Proof.
  split.
  - intros name args Hname Hcmd.
    destruct (plain_name_positional name Hname) as (_ & Hopt & Hpre).
    unfold main, bind. rewrite (group_positional env name args quiet Hopt).
    cbn [Click.largs Click.initial List.app main_invoke].
    unfold resolve_command, bind. rewrite Hcmd, Hpre. reflexivity.
  - unfold main, main_parse_args, no_args_is_help.
    now destruct (click_release env).
Qed.




(** ** Runs of the program *)

(** The runs of the test suite of the template, and some more. *)
Example test_hello_default :
  main (runner Click_8_1) ["hello"]
  = {| exit_code := 0;
       streams := {| stdout := [Line "Hello, World!"]; stderr := []; called := [Hello] |} |}.
Proof. reflexivity. Qed.

Example test_list_items :
  main (runner Click_8_1) ["list-items"; "apple"; "banana"; "cherry"]
  = {| exit_code := 0;
       streams := {| stdout := [Line "Items:"; Line "  1. apple";
                                Line "  2. banana"; Line "  3. cherry"];
                     stderr := [];
                     called := [ListItems] |} |}.
Proof. reflexivity. Qed.

Example test_info :
  stdout (streams (main (runner Click_8_1) ["info"]))
  = [Line "            {{PROJECT_NAME}} Info             ";
     Line "┏━━━━━━━━━━━━━┳━━━━━━━━━━━━━━━━━━━━━━━━━━━━━━┓";
     Line "┃ Property    ┃ Value                        ┃";
     Line "┡━━━━━━━━━━━━━╇━━━━━━━━━━━━━━━━━━━━━━━━━━━━━━┩";
     Line "│ Name        │ {{PROJECT_NAME}}             │";
     Line "│ Version     │ 0.1.0                        │";
     Line "│ Description │ A CLI tool built with Python │";
     Line "└─────────────┴──────────────────────────────┘"].
Proof. reflexivity. Qed.

(** Markup as rich reads it: tags leave the text, also those that name no
    style; a backslash escapes a tag; a closing tag needs an open one. *)
Example render_examples :
  map (Rich.render (runner Click_8_1))
      ["[b]x[/b]"; "[nostyle]x"; "\[b]x"; "\\[b]x"; "[1]"; "a[b"; "x[/b]"; "[/]";
       ":smile:"; ":Smile-text:"; ":a:smile:"]
  = [inr "x"; inr "x"; inr "[b]x"; inr "\x"; inr "[1]"; inr "a[b";
     inl (Rich.ClosingTagMismatch "/b"); inl Rich.NothingToClose;
     inr "😄"; inr "😄︎"; inr ":a:smile:"].
Proof. reflexivity. Qed.

Example int_examples :
  map Py.int_ascii ["3"; " 3 "; "+3"; "-3"; "1_0"; "0003"; "-0"]
  = map Some [3; 3; 3; -3; 10; 3; 0]%Z
  /\ map Py.int_ascii
       ["1__0"; "_1"; "1_"; ""; "abc"; "3.0"; "- 3"; "+-3"; "1e3"; " "; "+"; "-"]
     = List.repeat None 12.
Proof. split; reflexivity. Qed.

(** The limit of [int] is on the digits, leading zeros included; the sign
    and the underscores are not counted. *)
Example int_limit_examples :
  Py.int_literal (Str.repeat "1" 4300) = Some (Nat.iter 4300 D1 Nil)
  /\ Py.int_literal (Str.repeat "1" 4301) = None
  /\ Py.int_literal (Str.repeat "0" 4301) = None
  /\ Py.int_literal (Str.repeat "1_" 4299 ++ "1") = Some (Nat.iter 4300 D1 Nil)
  /\ Py.int_ascii ("-" ++ Str.repeat "1" 4301) = None.
Proof. repeat split; vm_compute; reflexivity. Qed.

(** A line as wide as the console is printed as it is; a longer one
    without white space is folded at the width. *)
Example lay_out_examples :
  Rich.lay_out (runner Click_8_1) (Str.repeat "a" 80) = [Str.repeat "a" 80]
  /\ Rich.lay_out (runner Click_8_1) (Str.repeat "a" 81) = [Str.repeat "a" 80; "a"].
Proof. split; reflexivity. Qed.

(** ** Runs that do not depend on the environment *)

(** A name that is a markup tag leaves the greeting, whatever the style
    grammar and the emoji table are. *)
Lemma hello_name_tag env :
  main env ["hello"; "--name"; "[b]"]
  = {| exit_code := 0;
       streams := {| stdout := [Line "Hello, !"]; stderr := []; called := [Hello] |} |}.
Proof.
  run_main. unfold hello, for_range, console_print, Rich.render.
  change (Str.mem "[" ("[bold green]Hello, " ++ "[b]" ++ "![/bold green]")) with true.
  change (Rich.parse ("[bold green]Hello, " ++ "[b]" ++ "![/bold green]"))
    with [tag "bold green"; Rich.Plain "Hello, "; tag "b"; Rich.Plain "!"; tag "/bold green"].
  cbn [negb Py.range_len Z.to_nat Pos.to_nat Pos.iter_op List.repeat for_each].
  cbn [Rich.render_tokens tag Rich.tag_name Rich.tag_parameters Str.starts_with Str.tail].
  change (Ascii.eqb "b" "/") with false.
  change (Ascii.eqb "/" "/") with true.
  change (Py.strip "bold green") with "bold green".
  cbn iota. cbn [Rich.pop_style Rich.tag_name].
  destruct (String.eqb (style_normalize env "b") (style_normalize env "bold green")).
  - unfold Rich.close_tag. cbn [Rich.tag_name Rich.tag_parameters].
    destruct (Str.starts_with "@" (style_normalize env "b")); reflexivity.
  - rewrite String.eqb_refl. cbn [option_map].
    unfold Rich.close_tag. cbn [Rich.tag_name Rich.tag_parameters].
    destruct (Str.starts_with "@" (style_normalize env "bold green")); reflexivity.
Qed.

Lemma list_items_dash_x env :
  main env ["list-items"; "-x"]
  = {| exit_code := 2;
       streams := {| stdout := [];
                     stderr := [UsagePage (Sub ListItems);
                                ErrorMessage (Click.NoSuchOption "-x")];
                     called := [] |} |}.
Proof. reflexivity. Qed.

Lemma version_then_unknown_option env :
  main env ["--version"; "--bogus"]
  = {| exit_code := 2;
       streams := {| stdout := [];
                     stderr := [UsagePage Group;
                                ErrorMessage (Click.NoSuchOption "--bogus")];
                     called := [] |} |}.
Proof. reflexivity. Qed.

Lemma help_then_version env :
  main env ["--help"; "--version"]
  = {| exit_code := 0;
       streams := {| stdout := [HelpPage Group]; stderr := []; called := [] |} |}.
Proof. reflexivity. Qed.

Lemma greet_unknown env :
  main env ["greet"]
  = {| exit_code := 2;
       streams := {| stdout := [];
                     stderr := [UsagePage Group;
                                ErrorMessage (Click.NoSuchCommand "greet")];
                     called := [] |} |}.
Proof. reflexivity. Qed.

(** ** Instances and counterexamples *)

Lemma hello_count_lines_witness :
  (0 <= 3)%Z
  /\ Py.str_digits 3 <= Py.max_str_digits
  /\ main (runner Click_8_1) ["hello"; "--count"; "3"]
     = {| exit_code := 0;
          streams := {| stdout := [Line "Hello, World!"; Line "Hello, World!";
                                   Line "Hello, World!"];
                        stderr := [];
                        called := [Hello] |} |}.
Proof.
  split; [lia | split; [fits_console |]].
  apply (hello_count_lines (runner Click_8_1) 3); [lia | fits_console].
Defined.

(** C2 fails on a count of more than 4300 digits: [int] refuses it, and
    the run ends in a usage error. *)
Lemma hello_count_over_digit_limit :
  (0 <= over_limit)%Z
  /\ Py.str over_limit = String "1" (Str.repeat "0" 4300)
  /\ main (runner Click_8_1) ["hello"; "--count"; Py.str over_limit]
     = {| exit_code := 2;
          streams := {| stdout := [];
                        stderr := [UsagePage (Sub Hello);
                                   ErrorMessage
                                     (Click.BadParameter "--count" (Py.str over_limit))];
                        called := [] |} |}
  /\ exit_code (main (runner Click_8_1) ["hello"; "--count"; Py.str over_limit]) <> 0%Z.
Proof.
  pose proof (hello_count_beyond_limit (runner Click_8_1) over_limit
                (proj1 over_limit_digits)) as E.
  split; [apply Z.lt_le_incl, over_limit_pos | split; [apply (str_one_and_zeros Py.max_str_digits) |]].
  split; [exact E | rewrite E; discriminate].
Qed.

Lemma hello_negative_count_witness :
  (-2 < 0)%Z
  /\ Py.str_digits (-2) <= Py.max_str_digits
  /\ main (runner Click_8_1) ["hello"; "--count"; "-2"]
     = {| exit_code := 0;
          streams := {| stdout := []; stderr := []; called := [Hello] |} |}.
Proof.
  split; [lia | split; [fits_console |]].
  apply (hello_negative_count (runner Click_8_1) (-2)); [lia | fits_console].
Defined.

(** C10 fails on a negative count of more than 4300 digits: [int] refuses
    it, and the run ends in a usage error. *)
Lemma hello_negative_count_over_digit_limit :
  (- over_limit < 0)%Z
  /\ Py.str (- over_limit) = String "-" (String "1" (Str.repeat "0" 4300))
  /\ main (runner Click_8_1) ["hello"; "--count"; Py.str (- over_limit)]
     = {| exit_code := 2;
          streams := {| stdout := [];
                        stderr := [UsagePage (Sub Hello);
                                   ErrorMessage
                                     (Click.BadParameter "--count" (Py.str (- over_limit)))];
                        called := [] |} |}
  /\ exit_code (main (runner Click_8_1) ["hello"; "--count"; Py.str (- over_limit)]) <> 0%Z.
Proof.
  pose proof (hello_count_beyond_limit (runner Click_8_1) (- over_limit)
                (proj2 over_limit_digits)) as E.
  pose proof over_limit_pos as Hpos.
  split; [lia | split; [apply (str_minus_one_and_zeros Py.max_str_digits) |]].
  split; [exact E | rewrite E; discriminate].
Qed.

Lemma hello_count_not_integer_witness :
  Py.int (int_non_ascii (runner Click_8_1)) "abc" = None
  /\ main (runner Click_8_1) ["hello"; "--count"; "abc"]
     = {| exit_code := 2;
          streams := {| stdout := [];
                        stderr := [UsagePage (Sub Hello);
                                   ErrorMessage (Click.BadParameter "--count" "abc")];
                        called := [] |} |}.
Proof.
  split; [reflexivity |].
  apply (hello_count_not_integer (runner Click_8_1) "abc"); reflexivity.
Defined.

Lemma hello_name_line_witness :
  verbatim "Python" = true
  /\ String.length ("Hello, " ++ "Python" ++ "!") <= Rich.console_width
  /\ main (runner Click_8_1) ["hello"; "--name"; "Python"]
     = {| exit_code := 0;
          streams := {| stdout := [Line "Hello, Python!"];
                        stderr := [];
                        called := [Hello] |} |}.
Proof.
  split; [reflexivity | split; [fits_console |]].
  apply (hello_name_line (runner Click_8_1) "Python"); [reflexivity | fits_console].
Defined.

(** C4 fails on a name that is a markup tag: the tag leaves the line. *)
Lemma hello_name_markup :
  "[b]" <> "" /\ Str.forallb printable "[b]" = true
  /\ main (runner Click_8_1) ["hello"; "--name"; "[b]"]
     = {| exit_code := 0;
          streams := {| stdout := [Line "Hello, !"]; stderr := []; called := [Hello] |} |}
  /\ stdout (streams (main (runner Click_8_1) ["hello"; "--name"; "[b]"]))
     <> [Line ("Hello, " ++ "[b]" ++ "!")].
Proof. repeat split; discriminate. Qed.

Lemma list_items_numbered_witness :
  ["apple"; "banana"; "cherry"] <> []
  /\ Forall (fun item => Click.is_option_token item = false /\ verbatim item = true)
            ["apple"; "banana"; "cherry"]
  /\ Forall (fun '(i, item) =>
               String.length ("  " ++ Py.str (Z.of_nat i) ++ ". " ++ item)
               <= Rich.console_width)
            [(1, "apple"); (2, "banana"); (3, "cherry")]
  /\ main (runner Click_8_1) ["list-items"; "apple"; "banana"; "cherry"]
     = {| exit_code := 0;
          streams := {| stdout := [Line "Items:"; Line "  1. apple";
                                   Line "  2. banana"; Line "  3. cherry"];
                        stderr := [];
                        called := [ListItems] |} |}.
Proof.
  assert (H : Forall (fun item => Click.is_option_token item = false /\ verbatim item = true)
                     ["apple"; "banana"; "cherry"])
    by (repeat constructor).
  assert (Hw : Forall (fun '(i, item) =>
                         String.length ("  " ++ Py.str (Z.of_nat i) ++ ". " ++ item)
                         <= Rich.console_width)
                      [(1, "apple"); (2, "banana"); (3, "cherry")])
    by (repeat constructor; fits_console).
  split; [discriminate | split; [exact H | split; [exact Hw |]]].
  apply (list_items_numbered (runner Click_8_1) ["apple"; "banana"; "cherry"]);
    [discriminate | exact H | exact Hw].
Defined.

(** C5 fails on an item that is read as an option: nothing is listed. *)
Lemma list_items_option_like :
  ["-x"] <> []
  /\ main (runner Click_8_1) ["list-items"; "-x"]
     = {| exit_code := 2;
          streams := {| stdout := [];
                        stderr := [UsagePage (Sub ListItems);
                                   ErrorMessage (Click.NoSuchOption "-x")];
                        called := [] |} |}
  /\ main (runner Click_8_1) ["list-items"; "-x"]
     <> {| exit_code := 0;
           streams := {| stdout := [Line "Items:"; Line "  1. -x"];
                         stderr := [];
                         called := [ListItems] |} |}.
Proof. repeat split; discriminate. Qed.

Lemma version_first_witness :
  Forall (fun arg => arg = "--version" \/ arg = "--help") ["--help"]
  /\ ends_options ["hello"; "--bogus"]
  /\ main (runner Click_8_1) ["--version"; "--help"; "hello"; "--bogus"]
     = {| exit_code := 0;
          streams := {| stdout := [Line "main, version 0.1.0"];
                        stderr := [];
                        called := [] |} |}.
Proof.
  assert (H1 : Forall (fun arg => arg = "--version" \/ arg = "--help") ["--help"])
    by (repeat constructor; now right).
  assert (H2 : ends_options ["hello"; "--bogus"]) by (now right).
  split; [exact H1 | split; [exact H2 |]].
  apply (version_first (runner Click_8_1) ["--help"] ["hello"; "--bogus"]);
    [exact H1 | exact H2].
Defined.

(** C7 fails when another option of the group is not known, and when
    [--help] comes first. *)
Lemma version_with_other_options :
  main (runner Click_8_1) ["--version"; "--bogus"]
  = {| exit_code := 2;
       streams := {| stdout := [];
                     stderr := [UsagePage Group;
                                ErrorMessage (Click.NoSuchOption "--bogus")];
                     called := [] |} |}
  /\ main (runner Click_8_1) ["--help"; "--version"]
     = {| exit_code := 0;
          streams := {| stdout := [HelpPage Group]; stderr := []; called := [] |} |}.
Proof. split; reflexivity. Qed.

Lemma unknown_or_missing_subcommand_witness :
  plain_name "greet" = true /\ get_command "greet" = None
  /\ main (runner Click_8_2) ["greet"; "--name"; "x"]
     = {| exit_code := 2;
          streams := {| stdout := [];
                        stderr := [UsagePage Group;
                                   ErrorMessage (Click.NoSuchCommand "greet")];
                        called := [] |} |}
  /\ main (runner Click_8_2) []
     = {| exit_code := 2;
          streams := {| stdout := []; stderr := [HelpPage Group]; called := [] |} |}.
Proof.
  split; [reflexivity | split; [reflexivity |]].
  destruct (unknown_or_missing_subcommand (runner Click_8_2)) as [Hname Hbare].
  split; [apply (Hname "greet" ["--name"; "x"]); reflexivity | exact Hbare].
Defined.

(** C8 fails for the start without arguments under click up to 8.1: the
    help page is printed and the status is 0. *)
Lemma no_arguments_click_8_1 :
  main (runner Click_8_1) []
  = {| exit_code := 0;
       streams := {| stdout := [HelpPage Group]; stderr := []; called := [] |} |}
  /\ exit_code (main (runner Click_8_1) []) = 0%Z.
Proof. split; reflexivity. Qed.



(** * Further properties of the commands *)

(** ** hello *)

(** X1: [hello] with a name whose greeting prints as it is and is no wider
    than the console, and a count that [int] reads, the options in either
    order, prints the greeting of that name as many times as the count
    says. *)
Theorem hello_name_and_count env (name count_text : string) (n : Z) :
  verbatim name = true ->
  String.length ("Hello, " ++ name ++ "!") <= Rich.console_width ->
  Py.int (int_non_ascii env) count_text = Some n ->
  let greeted :=
    {| exit_code := 0;
       streams := {| stdout := List.repeat (Line ("Hello, " ++ name ++ "!")) (Z.to_nat n);
                     stderr := [];
                     called := [Hello] |} |} in
  main env ["hello"; "--name"; name; "--count"; count_text] = greeted
  /\ main env ["hello"; "--count"; count_text; "--name"; name] = greeted.
Proof.
  intros Hname Hw Hn greeted; subst greeted.
  split; run_main; rewrite Hn; cbn -[hello]; now rewrite hello_lines.
Qed.

Lemma hello_name_and_count_witness :
  verbatim "Ada" = true
  /\ String.length ("Hello, " ++ "Ada" ++ "!") <= Rich.console_width
  /\ Py.int (int_non_ascii (runner Click_8_2)) " +2 " = Some 2%Z
  /\ main (runner Click_8_2) ["hello"; "--count"; " +2 "; "--name"; "Ada"]
     = {| exit_code := 0;
          streams := {| stdout := [Line "Hello, Ada!"; Line "Hello, Ada!"];
                        stderr := [];
                        called := [Hello] |} |}.
Proof.
  split; [reflexivity | split; [fits_console | split; [reflexivity |]]].
  apply (hello_name_and_count (runner Click_8_2) "Ada" " +2 " 2);
    [reflexivity | fits_console | reflexivity].
Defined.

(** X2: With a count that [int] reads as zero or less the loop of [hello]
    does not run, so the name is never rendered: whatever the name is,
    also one that is not well-formed markup, nothing is printed and the
    status is 0. *)
Theorem hello_no_greeting_any_name env (name count_text : string) (n : Z) :
  Py.int (int_non_ascii env) count_text = Some n ->
  (n <= 0)%Z ->
  main env ["hello"; "--name"; name; "--count"; count_text]
  = {| exit_code := 0;
       streams := {| stdout := []; stderr := []; called := [Hello] |} |}.
Proof.
  intros Hn Hle. run_main. rewrite Hn. cbn -[hello].
  unfold hello, for_range, Py.range_len.
  replace (Z.to_nat n) with O by lia. reflexivity.
Qed.

Lemma hello_no_greeting_any_name_witness :
  Py.int (int_non_ascii (runner Click_8_1)) "0" = Some 0%Z
  /\ (0 <= 0)%Z
  /\ main (runner Click_8_1) ["hello"; "--name"; "[/x]"; "--count"; "0"]
     = {| exit_code := 0;
          streams := {| stdout := []; stderr := []; called := [Hello] |} |}.
Proof.
  split; [reflexivity | split; [lia |]].
  apply (hello_no_greeting_any_name (runner Click_8_1) "[/x]" "0" 0); [reflexivity | lia].
Defined.

(** X3: When the greeting of a name is not well-formed markup, [hello] with a
    count that [int] reads as positive stops at its first print: nothing
    is printed, the error leaves the program as a traceback, and the
    status is 1. *)
Theorem hello_markup_error env (name count_text : string) (n : Z) (e : Rich.MarkupError) :
  Py.int (int_non_ascii env) count_text = Some n ->
  (0 < n)%Z ->
  Rich.render env ("[bold green]Hello, " ++ name ++ "![/bold green]") = inl e ->
  main env ["hello"; "--name"; name; "--count"; count_text]
  = {| exit_code := 1;
       streams := {| stdout := []; stderr := [Traceback e]; called := [Hello] |} |}.
Proof.
  intros Hn Hpos He. run_main. rewrite Hn. cbn -[hello].
  unfold hello, for_range, Py.range_len.
  destruct (Z.to_nat n) as [|k] eqn:Ek; [lia |].
  cbn [List.repeat for_each]. unfold bind at 1, console_print at 1.
  rewrite He. reflexivity.
Qed.

Lemma hello_markup_error_witness :
  Py.int (int_non_ascii (runner Click_8_1)) "3" = Some 3%Z
  /\ (0 < 3)%Z
  /\ Rich.render (runner Click_8_1) ("[bold green]Hello, " ++ "[/x]" ++ "![/bold green]")
     = inl (Rich.ClosingTagMismatch "/x")
  /\ main (runner Click_8_1) ["hello"; "--name"; "[/x]"; "--count"; "3"]
     = {| exit_code := 1;
          streams := {| stdout := [];
                        stderr := [Traceback (Rich.ClosingTagMismatch "/x")];
                        called := [Hello] |} |}.
Proof.
  split; [reflexivity | split; [lia | split; [reflexivity |]]].
  apply (hello_markup_error (runner Click_8_1) "[/x]" "3" 3); [reflexivity | lia | reflexivity].
Defined.

(** ** Sequences of options of hello *)

(** What the parser has after a sequence of options of [hello]: the
    options in the order given, the arguments as before, and for each
    option the value given last. *)
Lemma process_option_tokens (given : list (bool * string)) (rest : list string) st :
  exists st',
    Click.process_args hello_options true (option_tokens given ++ rest) st
    = Click.process_args hello_options true rest st'
    /\ Click.order st' = (Click.order st ++ map (fun p => option_name (fst p)) given)%list
    /\ Click.largs st' = Click.largs st
    /\ forall b,
         Click.get_value (option_name b) (Click.opts st')
         = fold_left (fun found '(b', value) => if Bool.eqb b' b then Some value else found)
                     given (Click.get_value (option_name b) (Click.opts st)).
Proof.
  revert st. induction given as [|[is_name value] given IH]; intros st.
  - exists st. cbn. rewrite List.app_nil_r. auto.
  - destruct (IH (Click.store (Click.value_option (option_name is_name)) value st))
      as (st' & E & Ho & Hl & Hv).
    exists st'. split; [| split; [| split]].
    + rewrite <- E. destruct is_name; reflexivity.
    + rewrite Ho. cbn. now rewrite <- List.app_assoc.
    + rewrite Hl. reflexivity.
    + intros b. rewrite Hv. cbn [fold_left]. f_equal.
      destruct is_name, b; reflexivity.
Qed.

Lemma first_eager_options (given : list (bool * string)) (seen : list string) :
  Click.first_eager hello_options (map (fun p => option_name (fst p)) given ++ seen)
  = Click.first_eager hello_options seen.
Proof.
  induction given as [|[[|] value] given IH]; [reflexivity | exact IH | exact IH].
Qed.

(** The run of [hello] on a sequence of its options is that of the values
    given last. *)
Lemma hello_run_values env (given : list (bool * string)) :
  main env ("hello" :: option_tokens given)
  = standalone
      ((count <-
          match last_value false given with
          | Some value =>
              match Py.int (int_non_ascii env) value with
              | Some n => ret n
              | None => raise (ClickException (Sub Hello) (Click.BadParameter "--count" value))
              end
          | None => ret 1%Z
          end ;;
        enter Hello ;;
        hello env match last_value true given with
                  | Some value => value
                  | None => "World"
                  end count) quiet).
Proof.
  destruct (process_option_tokens given [] Click.initial) as (st' & E & Ho & Hl & Hv).
  rewrite List.app_nil_r in E. cbn [Click.process_args] in E.
  pose proof (Hv true) as Hname. pose proof (Hv false) as Hcount.
  cbn [option_name Click.opts Click.initial Click.get_value] in Hname, Hcount.
  fold (last_value true given) in Hname. fold (last_value false given) in Hcount.
  cbn [Click.order Click.initial List.app] in Ho.
  cbn [Click.largs Click.initial] in Hl.
  unfold main, bind at 1.
  rewrite group_positional by reflexivity.
  cbn [Click.largs Click.initial List.app main_invoke].
  unfold resolve_command.
  change (get_command "hello") with (Some Hello).
  unfold bind at 1. cbn [ret invoke_command].
  unfold hello_command, parse_args, bind at 1.
  change [Click.value_option "--name"; Click.value_option "--count"; Click.help_option]
    with hello_options.
  rewrite E, Ho.
  rewrite <- (List.app_nil_r (map (fun p => option_name (fst p)) given)).
  rewrite first_eager_options. cbn [Click.first_eager].
  unfold ret at 1. rewrite Hname, Hcount, Hl.
  reflexivity.
Qed.

Lemma last_value_kept (b : bool) (given : list (bool * string)) :
  last_value b (last_values given) = last_value b given.
Proof.
  unfold last_values.
  destruct (last_value true given) as [n |] eqn:En;
    destruct (last_value false given) as [c |] eqn:Ec;
    destruct b; cbn; congruence.
Qed.

(** X4: Of the options of [hello] only the last value of each counts:
    whatever sequence of [--name] and [--count] options is given, with
    whatever values, the run is that of the last [--name] and the last
    [--count] alone; earlier values are not used, not even converted. *)
Theorem hello_last_values env (given : list (bool * string)) :
  main env ("hello" :: option_tokens given)
  = main env ("hello" :: option_tokens (last_values given)).
Proof.
  rewrite (hello_run_values env given), (hello_run_values env (last_values given)).
  now rewrite !last_value_kept.
Qed.

(** X6: [--help] among the options of [hello] is answered before any
    value is converted: whatever [--name] and [--count] options come
    before and after it, with whatever values, the help page of [hello]
    is printed with status 0 and the callback is not entered. *)
Theorem hello_help_among_options env (before after : list (bool * string)) :
  main env ("hello" :: option_tokens before ++ "--help" :: option_tokens after)
  = {| exit_code := 0;
       streams := {| stdout := [HelpPage (Sub Hello)]; stderr := []; called := [] |} |}.
Proof.
  destruct (process_option_tokens before ("--help" :: option_tokens after) Click.initial)
    as (st1 & E1 & Ho1 & _).
  destruct (process_option_tokens after [] (Click.store Click.help_option "" st1))
    as (st2 & E2 & Ho2 & _).
  rewrite List.app_nil_r in E2. cbn [Click.process_args] in E2.
  cbn [Click.order Click.initial List.app] in Ho1.
  cbn [Click.order Click.store Click.opt Click.help_option] in Ho2.
  unfold main, bind at 1.
  rewrite group_positional by reflexivity.
  cbn [Click.largs Click.initial List.app main_invoke].
  unfold resolve_command.
  change (get_command "hello") with (Some Hello).
  unfold bind at 1. cbn [ret invoke_command].
  unfold hello_command, parse_args, bind at 1.
  change [Click.value_option "--name"; Click.value_option "--count"; Click.help_option]
    with hello_options.
  rewrite E1.
  change (Click.process_args hello_options true ("--help" :: option_tokens after) st1)
    with (Click.process_args hello_options true (option_tokens after)
            (Click.store Click.help_option "" st1)).
  rewrite E2, Ho2, Ho1, <- List.app_assoc, first_eager_options.
  reflexivity.
Qed.

(** ** Arguments the commands do not take *)

(** Tokens that are not options, ahead of more tokens, are kept as
    arguments where arguments may be interspersed. *)
Lemma process_positional_app options (items rest : list string) st :
  Forall (fun item => Click.is_option_token item = false) items ->
  Click.process_args options true (items ++ rest) st
  = Click.process_args options true rest (Click.add_largs items st).
Proof.
  intros H; revert st.
  induction H as [|x r Hx _ IH]; intros st.
  - unfold Click.add_largs; cbn [List.app]. rewrite List.app_nil_r. now destruct st.
  - cbn [List.app Click.process_args].
    now rewrite (not_option_not_dashes _ Hx), Hx, IH, add_largs_cons.
Qed.

(** X5: [hello] and [info] declare no argument: given any, each ends in a
    usage error that names them, with status 2, before its callback. *)
Theorem no_positional_arguments env (args : list string) :
  args <> [] ->
  Forall (fun arg => Click.is_option_token arg = false) args ->
  main env ("hello" :: args)
  = {| exit_code := 2;
       streams := {| stdout := [];
                     stderr := [UsagePage (Sub Hello);
                                ErrorMessage (Click.UnexpectedExtraArguments args)];
                     called := [] |} |}
  /\ main env ("info" :: args)
     = {| exit_code := 2;
          streams := {| stdout := [];
                        stderr := [UsagePage (Sub Info);
                                   ErrorMessage (Click.UnexpectedExtraArguments args)];
                        called := [] |} |}.
Proof.
  intros Hne H.
  split; unfold main, bind at 1;
    rewrite group_positional by reflexivity;
    cbn [Click.largs Click.initial List.app main_invoke];
    unfold resolve_command.
  - change (get_command "hello") with (Some Hello).
    unfold bind at 1. cbn [ret invoke_command].
    unfold hello_command, parse_args, bind at 1.
    rewrite (process_positional _ _ _ H).
    unfold Click.add_largs.
    cbn [Click.order Click.opts Click.largs Click.initial Click.first_eager
         Click.get_value List.app].
    destruct args as [|x r]; [congruence | reflexivity].
  - change (get_command "info") with (Some Info).
    unfold bind at 1. cbn [ret invoke_command].
    unfold info_command, parse_args, bind at 1.
    rewrite (process_positional _ _ _ H).
    unfold Click.add_largs.
    cbn [Click.order Click.opts Click.largs Click.initial Click.first_eager
         Click.get_value List.app].
    destruct args as [|x r]; [congruence | reflexivity].
Qed.



Lemma no_positional_arguments_witness :
  ["Ada"] <> []
  /\ Forall (fun arg => Click.is_option_token arg = false) ["Ada"]
  /\ main (runner Click_8_1) ["hello"; "Ada"]
     = {| exit_code := 2;
          streams := {| stdout := [];
                        stderr := [UsagePage (Sub Hello);
                                   ErrorMessage (Click.UnexpectedExtraArguments ["Ada"])];
                        called := [] |} |}.
Proof.
  assert (H : Forall (fun arg => Click.is_option_token arg = false) ["Ada"])
    by (repeat constructor).
  split; [discriminate | split; [exact H |]].
  apply (no_positional_arguments (runner Click_8_1) ["Ada"]); [discriminate | exact H].
Defined.

(** ** Help *)

(** X7: [--help] anywhere among the items of [list-items] gives the help
    page: no item is listed. *)
Theorem list_items_help env (before after : list string) :
  Forall (fun item => Click.is_option_token item = false) before ->
  Forall (fun item => Click.is_option_token item = false) after ->
  main env ("list-items" :: before ++ "--help" :: after)
  = {| exit_code := 0;
       streams := {| stdout := [HelpPage (Sub ListItems)]; stderr := []; called := [] |} |}.
Proof.
  intros Hb Ha. run_main. unfold list_items_command, parse_args.
  rewrite (process_positional_app _ _ _ _ Hb).
  cbn [Click.process_args].
  change (String.eqb "--help" "--") with false.
  change (Click.is_option_token "--help") with true.
  cbn [Str.partition_eq Ascii.eqb Bool.eqb Click.find_option Click.opt Click.help_option
       String.eqb Click.takes_value].
  rewrite (process_positional _ _ _ Ha). reflexivity.
Qed.

Lemma list_items_help_witness :
  Forall (fun item => Click.is_option_token item = false) ["apple"]
  /\ Forall (fun item => Click.is_option_token item = false) ["cherry"]
  /\ main (runner Click_8_1) ["list-items"; "apple"; "--help"; "cherry"]
     = {| exit_code := 0;
          streams := {| stdout := [HelpPage (Sub ListItems)]; stderr := []; called := [] |} |}.
Proof.
  assert (H1 : Forall (fun item => Click.is_option_token item = false) ["apple"])
    by (repeat constructor).
  assert (H2 : Forall (fun item => Click.is_option_token item = false) ["cherry"])
    by (repeat constructor).
  split; [exact H1 | split; [exact H2 |]].
  apply (list_items_help (runner Click_8_1) ["apple"] ["cherry"]); assumption.
Defined.

(** X8: When the arguments start with [--help] and the options of the group
    that follow are only [--version] or [--help], the help page of the
    group is printed with status 0 and no subcommand is entered. *)
Theorem help_first env (flags rest : list string) :
  Forall (fun arg => arg = "--version" \/ arg = "--help") flags ->
  ends_options rest ->
  main env ("--help" :: flags ++ rest)
  = {| exit_code := 0;
       streams := {| stdout := [HelpPage Group]; stderr := []; called := [] |} |}.
Proof.
  intros Hflags Hrest.
  destruct (process_group_flags ("--help" :: flags) rest Click.initial)
    as (st' & E & Ho); [now constructor; [right |] | assumption |].
  unfold main, main_parse_args, parse_args.
  change ("--help" :: flags ++ rest)%list with (("--help" :: flags) ++ rest)%list.
  unfold bind at 1 2 3. cbn [ret].
  rewrite E, Ho. reflexivity.
Qed.

Lemma help_first_witness :
  Forall (fun arg => arg = "--version" \/ arg = "--help") ["--version"]
  /\ ends_options ["info"]
  /\ main (runner Click_8_1) ["--help"; "--version"; "info"]
     = {| exit_code := 0;
          streams := {| stdout := [HelpPage Group]; stderr := []; called := [] |} |}.
Proof.
  assert (H1 : Forall (fun arg => arg = "--version" \/ arg = "--help") ["--version"])
    by (repeat constructor; now left).
  assert (H2 : ends_options ["info"]) by (now right).
  split; [exact H1 | split; [exact H2 |]].
  apply (help_first (runner Click_8_1) ["--version"] ["info"]); assumption.
Defined.

(** ** list-items *)

(** X9: After [--] every token is an item: items that look like options are
    listed like the others, when they print as they are and their lines
    are no wider than the console. *)
Theorem list_items_after_dashes env (items : list string) :
  items <> [] ->
  Forall (fun item => verbatim item = true) items ->
  Forall (fun '(i, item) =>
            String.length ("  " ++ Py.str (Z.of_nat i) ++ ". " ++ item)
            <= Rich.console_width)
         (combine (seq 1 (List.length items)) items) ->
  main env ("list-items" :: "--" :: items)
  = {| exit_code := 0;
       streams :=
         {| stdout :=
              Line "Items:"
              :: map (fun '(i, item) => Line ("  " ++ Py.str (Z.of_nat i) ++ ". " ++ item))
                   (combine (seq 1 (List.length items)) items);
            stderr := [];
            called := [ListItems] |} |}.
Proof.
  intros Hne Hv Hw. run_main.
  rewrite (list_items_lines env items _ Hne (items_fit_enumerate items 1 Hv Hw)).
  unfold standalone, write. cbn [stdout stderr called List.app].
  do 3 f_equal.
  change 1%Z with (Z.of_nat 1). rewrite enumerate_seq.
  generalize (seq 1 (List.length items)); intros l. clear.
  revert items; induction l as [|k l IH]; intros [|x r]; try reflexivity.
  cbn [map combine]. now rewrite IH.
Qed.

Lemma list_items_after_dashes_witness :
  ["-x"; "--help"] <> []
  /\ Forall (fun item => verbatim item = true) ["-x"; "--help"]
  /\ Forall (fun '(i, item) =>
               String.length ("  " ++ Py.str (Z.of_nat i) ++ ". " ++ item)
               <= Rich.console_width)
            [(1, "-x"); (2, "--help")]
  /\ main (runner Click_8_1) ["list-items"; "--"; "-x"; "--help"]
     = {| exit_code := 0;
          streams := {| stdout := [Line "Items:"; Line "  1. -x"; Line "  2. --help"];
                        stderr := [];
                        called := [ListItems] |} |}.
Proof.
  assert (H : Forall (fun item => verbatim item = true) ["-x"; "--help"])
    by (repeat constructor).
  assert (Hw : Forall (fun '(i, item) =>
                         String.length ("  " ++ Py.str (Z.of_nat i) ++ ". " ++ item)
                         <= Rich.console_width)
                      [(1, "-x"); (2, "--help")])
    by (repeat constructor; fits_console).
  split; [discriminate | split; [exact H | split; [exact Hw |]]].
  apply (list_items_after_dashes (runner Click_8_1) ["-x"; "--help"]);
    [discriminate | exact H | exact Hw].
Defined.

Lemma for_each_app {A} (xs ys : list A) (body : A -> M unit) (w : World) :
  for_each (xs ++ ys) body w = (for_each xs body ;; for_each ys body) w.
Proof.
  revert w; induction xs as [|x xs IH]; intros w; cbn [List.app for_each].
  - unfold bind, ret. now destruct (for_each ys body w) as [w' [e | []]].
  - unfold bind.
    destruct (body x w) as [w' [e | u]]; [reflexivity |].
    rewrite IH. reflexivity.
Qed.

Lemma enumerate_app {A} (xs ys : list A) (k : Z) :
  Py.enumerate (xs ++ ys) k
  = (Py.enumerate xs k ++ Py.enumerate ys (k + Z.of_nat (List.length xs)))%list.
Proof.
  revert k; induction xs as [|x xs IH]; intros k; cbn [List.app Py.enumerate List.length].
  - now rewrite Z.add_0_r.
  - rewrite IH. do 3 f_equal. lia.
Qed.

(** X10: The items are printed one by one: when an item is not well-formed
    markup, the header and the items before it, which print as they are
    on lines no wider than the console, are already printed; the listing
    stops there, with a traceback and status 1. *)
Theorem list_items_stops_at_markup_error env (good : list string) (bad : string)
        (rest : list string) (e : Rich.MarkupError) :
  Forall (fun item => Click.is_option_token item = false /\ verbatim item = true) good ->
  Forall (fun '(i, item) =>
            String.length ("  " ++ Py.str (Z.of_nat i) ++ ". " ++ item)
            <= Rich.console_width)
         (combine (seq 1 (List.length good)) good) ->
  Click.is_option_token bad = false ->
  Forall (fun item => Click.is_option_token item = false) rest ->
  Rich.render env ("  " ++ Py.str (Z.of_nat (S (List.length good))) ++ ". " ++ bad) = inl e ->
  main env ("list-items" :: good ++ bad :: rest)
  = {| exit_code := 1;
       streams :=
         {| stdout :=
              Line "Items:"
              :: map (fun '(i, item) => Line ("  " ++ Py.str (Z.of_nat i) ++ ". " ++ item))
                   (combine (seq 1 (List.length good)) good);
            stderr := [Traceback e];
            called := [ListItems] |} |}.
Proof.
  intros Hgood Hw Hbad Hrest He.
  assert (Hopt : Forall (fun item => Click.is_option_token item = false)
                        (good ++ bad :: rest)).
  { apply Forall_app; split; [|now constructor].
    eapply Forall_impl; [|exact Hgood]; now intros a [? ?]. }
  assert (Hv : Forall (fun item => verbatim item = true) good)
    by (eapply Forall_impl; [|exact Hgood]; now intros a [? ?]).
  run_main. unfold list_items_command, parse_args.
  rewrite (process_positional _ _ _ Hopt). cbn -[list_items].
  clear Hopt. unfold list_items.
  destruct (good ++ bad :: rest)%list as [|x r] eqn:El;
    [now destruct good |].
  rewrite <- El. clear El x r.
  unfold bind at 1.
  rewrite (console_print_line env _ "Items:")
    by first [apply render_items_header | reflexivity | fits_console].
  rewrite enumerate_app, for_each_app. unfold bind at 1.
  rewrite (for_each_write
             (fun '(i, item) => [Line ("  " ++ Py.str i ++ ". " ++ item)])).
  - cbn [Py.enumerate for_each]. unfold bind at 1, console_print at 1.
    replace (1 + Z.of_nat (List.length good))%Z with (Z.of_nat (S (List.length good))) by lia.
    rewrite He. rewrite write_app.
    unfold standalone, raise, write. cbn [stdout stderr called List.app].
    do 3 f_equal.
    change 1%Z with (Z.of_nat 1). rewrite enumerate_seq.
    generalize (seq 1 (List.length good)); intros l. clear.
    revert good; induction l as [|k l IH]; intros [|x r]; try reflexivity.
    cbn [map combine flat_map List.app]. now rewrite IH.
  - eapply Forall_impl; [|exact (items_fit_enumerate good 1 Hv Hw)].
    intros [i item] [Hi Hwi] w'. now apply item_line.
Qed.

Lemma list_items_stops_at_markup_error_witness :
  Forall (fun item => Click.is_option_token item = false /\ verbatim item = true) ["apple"]
  /\ Forall (fun '(i, item) =>
               String.length ("  " ++ Py.str (Z.of_nat i) ++ ". " ++ item)
               <= Rich.console_width)
            [(1, "apple")]
  /\ Click.is_option_token "[/]" = false
  /\ Forall (fun item => Click.is_option_token item = false) ["cherry"]
  /\ Rich.render (runner Click_8_1) ("  " ++ Py.str (Z.of_nat 2) ++ ". " ++ "[/]")
     = inl Rich.NothingToClose
  /\ main (runner Click_8_1) ["list-items"; "apple"; "[/]"; "cherry"]
     = {| exit_code := 1;
          streams := {| stdout := [Line "Items:"; Line "  1. apple"];
                        stderr := [Traceback Rich.NothingToClose];
                        called := [ListItems] |} |}.
Proof.
  assert (H1 : Forall (fun item => Click.is_option_token item = false /\ verbatim item = true)
                      ["apple"]) by (repeat constructor).
  assert (H2 : Forall (fun item => Click.is_option_token item = false) ["cherry"])
    by (repeat constructor).
  assert (Hw : Forall (fun '(i, item) =>
                         String.length ("  " ++ Py.str (Z.of_nat i) ++ ". " ++ item)
                         <= Rich.console_width)
                      [(1, "apple")])
    by (repeat constructor; fits_console).
  split; [exact H1 | split; [exact Hw |]].
  split; [reflexivity | split; [exact H2 | split; [reflexivity |]]].
  apply (list_items_stops_at_markup_error (runner Click_8_1) ["apple"] "[/]" ["cherry"]
           Rich.NothingToClose); [exact H1 | exact Hw | reflexivity | exact H2 | reflexivity].
Defined.

(** ** The group *)

(** X11: A [--] ahead of the subcommand changes nothing. *)
Theorem dashes_before_subcommand env (name : string) (args : list string) :
  Click.is_option_token name = false ->
  main env ("--" :: name :: args) = main env (name :: args).
Proof.
  intros H. unfold main, bind.
  rewrite (group_positional env name args quiet H).
  reflexivity.
Qed.

Lemma dashes_before_subcommand_witness :
  Click.is_option_token "hello" = false
  /\ main (runner Click_8_1) ["--"; "hello"; "--count"; "2"]
     = main (runner Click_8_1) ["hello"; "--count"; "2"].
Proof.
  split; [reflexivity |].
  apply (dashes_before_subcommand (runner Click_8_1) "hello" ["--count"; "2"]); reflexivity.
Defined.

(** ** What every run keeps *)

Lemma prints_console_print env (markup : string) : prints (console_print env markup).
Proof.
  intros w. unfold console_print.
  destruct (Rich.render env markup) as [e | text].
  - exists []. cbn. rewrite write_nil. eauto.
  - exists (flat_map (Rich.lay_out env) (Rich.split_lines text)). cbn. auto.
Qed.

Lemma prints_console_print_table env table : prints (console_print_table env table).
Proof.
  intros w. unfold console_print_table.
  destruct (Rich.render_table env table) as [e | lines].
  - exists []. cbn. rewrite write_nil. eauto.
  - exists lines. cbn. auto.
Qed.

Lemma prints_ret : prints (ret tt).
Proof. intros w. exists []. cbn. rewrite write_nil. auto. Qed.

Lemma prints_bind (m : M unit) (k : unit -> M unit) :
  prints m -> (forall u, prints (k u)) -> prints (bind m k).
Proof.
  intros Hm Hk w. unfold bind.
  destruct (Hm w) as (l1 & E1 & R1).
  destruct (m w) as [w1 r1]; cbn [fst snd] in *. subst w1.
  destruct R1 as [-> | [e ->]].
  - destruct (Hk tt (write (map Line l1) w)) as (l2 & E2 & R2).
    exists (l1 ++ l2)%list. rewrite E2, write_app, map_app. auto.
  - exists l1. cbn. eauto.
Qed.

Lemma prints_for_each {A} (xs : list A) (body : A -> M unit) :
  (forall x, prints (body x)) -> prints (for_each xs body).
Proof.
  intros Hbody. induction xs as [|x xs IH]; cbn [for_each].
  - apply prints_ret.
  - apply prints_bind; [apply Hbody | intros _; exact IH].
Qed.

Lemma prints_hello env name count : prints (hello env name count).
Proof. apply prints_for_each. intros _. apply prints_console_print. Qed.

Lemma prints_info env : prints (info env).
Proof. apply prints_console_print_table. Qed.

Lemma prints_list_items env items : prints (list_items env items).
Proof.
  unfold list_items. destruct items as [|x r]; [apply prints_console_print |].
  apply prints_bind; [apply prints_console_print | intros _].
  apply prints_for_each. intros [i item]. apply prints_console_print.
Qed.

(** How [parse_args] can end. *)
Lemma parse_args_cases env c options interspersed args w :
  (exists e, parse_args env c options interspersed args w = (w, inl (ClickException c e)))
  \/ (exists o, parse_args env c options interspersed args w = (write [o] w, inl (Exit 0)))
  \/ (exists st,
         parse_args env c options interspersed args w = (w, inr st)
         /\ Click.process_args options interspersed args Click.initial = inr st
         /\ Click.first_eager options (Click.order st) = None).
Proof.
  unfold parse_args.
  destruct (Click.process_args options interspersed args Click.initial) as [e | st];
    [left; now exists e |].
  destruct (Click.first_eager options (Click.order st)) as [name |] eqn:E;
    [| right; right; exists st; repeat split; exact E].
  right; left. destruct (String.eqb name "--version"); eexists; reflexivity.
Qed.

(** After the callback [h] is entered from the quiet state, only lines
    are written. *)
Lemma entered_run (h : Handler) (body : M unit) :
  prints body -> command_run h ((enter h ;; body) quiet).
Proof.
  intros Hb. right; right. unfold bind, enter. cbn [quiet stdout stderr called List.app].
  destruct (Hb {| stdout := []; stderr := []; called := [h] |}) as (lines & E & R).
  exists lines. split; [exact E | exact R].
Qed.

Lemma command_run_bind {A} (h : Handler) (m : M A) (k : A -> M unit) :
  ((exists c e, m quiet = (quiet, inl (ClickException c e)))
   \/ (exists o, m quiet = (write [o] quiet, inl (Exit 0)))
   \/ (exists x, m quiet = (quiet, inr x) /\ command_run h (k x quiet))) ->
  command_run h (bind m k quiet).
Proof.
  unfold bind. intros [(c & e & ->) | [(o & ->) | (x & -> & H)]].
  - left; eauto.
  - right; left; eauto.
  - exact H.
Qed.

Lemma command_run_parse env (h : Handler) options interspersed args
      (k : Click.ParsingState -> M unit) :
  (forall st, command_run h (k st quiet)) ->
  command_run h (bind (parse_args env (Sub h) options interspersed args) k quiet).
Proof.
  intros Hk. apply command_run_bind.
  destruct (parse_args_cases env (Sub h) options interspersed args quiet)
    as [(e & E) | [(o & E) | (st & E & _)]]; eauto 6.
Qed.

Lemma invoke_command_run env (h : Handler) (args : list string) :
  command_run h (invoke_command env h args quiet).
Proof.
  assert (Hextra : forall h (st : Click.ParsingState) (body : M unit),
             prints body ->
             command_run h ((no_extra_args (Sub h) (Click.largs st) ;; enter h ;; body) quiet)).
  { intros h' st body Hb. apply command_run_bind. unfold no_extra_args.
    destruct (Click.largs st) as [|x r].
    - right; right. exists tt. split; [reflexivity |]. now apply entered_run.
    - left. do 2 eexists. reflexivity. }
  destruct h; cbn [invoke_command].
  - unfold hello_command. apply command_run_parse. intros st.
    apply command_run_bind.
    destruct (Click.get_value "--count" (Click.opts st)) as [value |].
    + destruct (Py.int (int_non_ascii env) value) as [n |].
      * right; right. exists n. split; [reflexivity |].
        apply Hextra, prints_hello.
      * left. do 2 eexists. reflexivity.
    + right; right. exists 1%Z. split; [reflexivity |].
      apply Hextra, prints_hello.
  - unfold info_command. apply command_run_parse. intros st.
    apply Hextra, prints_info.
  - unfold list_items_command. apply command_run_parse. intros st.
    apply entered_run, prints_list_items.
Qed.

(** The parser only adds to the options it has seen. *)
Lemma process_args_order options interspersed (n : nat) :
  forall args st st',
    (List.length args <= n)%nat ->
    Click.process_args options interspersed args st = inr st' ->
    exists seen, Click.order st' = (Click.order st ++ seen)%list.
Proof.
  induction n as [|n IH]; intros args st st' Hlen H.
  - destruct args; [|cbn in Hlen; lia].
    cbn in H. injection H as <-. exists []. now rewrite List.app_nil_r.
  - destruct args as [|arg rest].
    + cbn in H. injection H as <-. exists []. now rewrite List.app_nil_r.
    + cbn [List.length] in Hlen. cbn [Click.process_args] in H.
      destruct (String.eqb arg "--").
      { injection H as <-. exists []. cbn. now rewrite List.app_nil_r. }
      destruct (Click.is_option_token arg).
      * destruct (Str.partition_eq arg) as [long_opt explicit].
        destruct (Click.find_option options long_opt) as [o |]; [|discriminate].
        destruct (Click.takes_value o).
        -- destruct explicit as [value |].
           ++ apply IH in H as (seen & ->); [|lia].
              exists (Click.opt o :: seen). cbn. now rewrite <- List.app_assoc.
           ++ destruct rest as [|value rest']; [discriminate |].
              apply IH in H as (seen & ->); [|cbn in Hlen; lia].
              exists (Click.opt o :: seen). cbn. now rewrite <- List.app_assoc.
        -- destruct explicit; [discriminate |].
           apply IH in H as (seen & ->); [|lia].
           exists (Click.opt o :: seen). cbn. now rewrite <- List.app_assoc.
      * destruct interspersed.
        -- apply IH in H as (seen & ->); [|lia]. now exists seen.
        -- injection H as <-. exists []. cbn. now rewrite List.app_nil_r.
Qed.

Lemma group_option_eager (name : string) (o : Click.Option_) :
  Click.find_option group_options name = Some o ->
  Click.takes_value o = false
  /\ Click.first_eager group_options [Click.opt o] = Some (Click.opt o)
  /\ forall seen, Click.first_eager group_options (Click.opt o :: seen) = Some (Click.opt o).
Proof.
  unfold group_options. cbn [Click.find_option].
  destruct (String.eqb (Click.opt Click.version_option) name);
    [intros [= <-]; repeat split |].
  destruct (String.eqb (Click.opt Click.help_option) name);
    [intros [= <-]; repeat split | discriminate].
Qed.

(** When the parser of the group returns and no eager option was seen,
    no option was seen at all: the arguments started with [--] or with a
    token that is not an option. *)
Lemma group_parse_positional (arg : string) (rest : list string) st :
  Click.process_args group_options false (arg :: rest) Click.initial = inr st ->
  Click.first_eager group_options (Click.order st) = None ->
  (arg = "--" /\ Click.largs st = rest)
  \/ (Click.is_option_token arg = false /\ Click.largs st = arg :: rest).
Proof.
  cbn [Click.process_args]. intros H Hno.
  destruct (String.eqb_spec arg "--") as [-> | Hne].
  { injection H as <-. now left. }
  destruct (Click.is_option_token arg); [| injection H as <-; now right].
  exfalso.
  destruct (Str.partition_eq arg) as [long_opt explicit].
  destruct (Click.find_option group_options long_opt) as [o |] eqn:Eo; [|discriminate].
  destruct (group_option_eager _ _ Eo) as (Htv & _ & Heager).
  rewrite Htv in H. destruct explicit; [discriminate |].
  apply (process_args_order _ _ (List.length rest)) in H as (seen & Hs); [|lia].
  cbn in Hs. rewrite Hs, Heager in Hno. discriminate.
Qed.

(** The run of the group: it ends before any callback, in a usage error
    or after one page or message with [Exit], or it is the run of the
    command that the first argument names, the first argument being the
    first token or the token after a leading [--]. *)
Lemma main_run env (argv : list string) :
  let run := (rest <- main_parse_args env argv ;; main_invoke env rest) quiet in
  (exists c e, run = (quiet, inl (ClickException c e)))
  \/ (exists o, run = (write [o] quiet, inl (Exit 0)))
  \/ (exists name args h,
         (argv = name :: args \/ argv = "--" :: name :: args)
         /\ get_command name = Some h
         /\ run = invoke_command env h args quiet).
Proof.
  assert (Hbare : (exists c e, (main_parse_args env []) quiet
                               = (quiet, inl (ClickException c e)))
                  \/ (exists o, (main_parse_args env []) quiet
                                = (write [o] quiet, inl (Exit 0)))).
  { unfold main_parse_args, no_args_is_help.
    destruct (click_release env);
      [right; eexists; reflexivity | left; do 2 eexists; reflexivity]. }
  assert (Hinvoke : forall rest,
             (exists c e, main_invoke env rest quiet = (quiet, inl (ClickException c e)))
             \/ (exists o, main_invoke env rest quiet = (write [o] quiet, inl (Exit 0)))
             \/ (exists name args h,
                    rest = name :: args /\ get_command name = Some h
                    /\ main_invoke env rest quiet = invoke_command env h args quiet)).
  { intros [|name args]; [left; do 2 eexists; reflexivity |].
    cbn [main_invoke]. unfold resolve_command.
    destruct (get_command name) as [h |] eqn:Eh.
    - right; right. exists name, args, h.
      split; [reflexivity | split; [exact Eh | reflexivity]].
    - destruct (Click.has_opt_prefix name).
      + unfold bind.
        destruct Hbare as [(c & e & E) | (o & E)]; rewrite E;
          [left; do 2 eexists; reflexivity | right; left; eexists; reflexivity].
      + left. do 2 eexists. reflexivity. }
  cbv zeta. destruct argv as [|arg rest].
  - unfold bind.
    destruct Hbare as [(c & e & E) | (o & E)]; rewrite E;
      [left; do 2 eexists; reflexivity | right; left; eexists; reflexivity].
  - unfold bind.
    change (main_parse_args env (arg :: rest) quiet)
      with (bind (parse_args env Group group_options false (arg :: rest))
                 (fun st => ret (Click.largs st)) quiet).
    unfold bind.
    destruct (parse_args_cases env Group group_options false (arg :: rest) quiet)
      as [(e & E) | [(o & E) | (st & E & Hst & Hno)]]; rewrite E;
      [left; do 2 eexists; reflexivity | right; left; eexists; reflexivity |].
    unfold ret.
    destruct (group_parse_positional arg rest st Hst Hno) as [[-> Hl] | [Hopt Hl]];
      rewrite Hl.
    + destruct (Hinvoke rest) as [H | [H | (name & args & h & -> & Hh & Ei)]];
        [now left | now right; left |].
      right; right. exists name, args, h. auto.
    + destruct (Hinvoke (arg :: rest))
        as [H | [H | (name & args & h & Hcons & Hh & Ei)]];
        [now left | now right; left |].
      injection Hcons as -> ->.
      right; right. exists name, args, h. auto.
Qed.

Lemma show_not_empty c e : show c e <> [].
Proof. destruct e; discriminate. Qed.

(** The outcomes of a run of the program. *)
Lemma main_outcome env (argv : list string) :
  let r := main env argv in
  (exit_code r = 2%Z /\ stdout (streams r) = [] /\ called (streams r) = []
   /\ stderr (streams r) <> [])
  \/ (exit_code r = 0%Z /\ stderr (streams r) = [] /\ called (streams r) = []
      /\ exists o, stdout (streams r) = [o])
  \/ (exists name args h lines,
         (argv = name :: args \/ argv = "--" :: name :: args)
         /\ get_command name = Some h
         /\ called (streams r) = [h]
         /\ stdout (streams r) = map Line lines
         /\ ((exit_code r = 0%Z /\ stderr (streams r) = [])
             \/ (exit_code r = 1%Z /\ exists e, stderr (streams r) = [Traceback e]))).
Proof.
  cbv zeta. unfold main.
  destruct (main_run env argv) as [(c & e & ->) | [(o & ->) | (name & args & h & Hargv & Hh & ->)]].
  - left. cbn. repeat split. apply show_not_empty.
  - right; left. cbn. repeat split. eauto.
  - destruct (invoke_command_run env h args)
      as [(c & e & ->) | [(o & ->) | (lines & Hw & Hr)]].
    + left. cbn. repeat split. apply show_not_empty.
    + right; left. cbn. repeat split. eauto.
    + right; right. exists name, args, h, lines.
      destruct (invoke_command env h args quiet) as [w r]; cbn [fst snd] in *. subst w.
      repeat split; try assumption;
        destruct Hr as [-> | [e ->]]; cbn; try reflexivity; eauto.
Qed.

(** X12: The exit status is 0, 1 or 2, and it is 0 exactly when nothing was
    written on the error stream. *)
Theorem exit_status_and_error_stream env (argv : list string) :
  (exit_code (main env argv) = 0%Z \/ exit_code (main env argv) = 1%Z
   \/ exit_code (main env argv) = 2%Z)
  /\ (exit_code (main env argv) = 0%Z <-> stderr (streams (main env argv)) = []).
Proof.
  destruct (main_outcome env argv)
    as [(Hc & _ & _ & He) | [(Hc & He & _) | (name & args & h & lines & _ & _ & _ & _ & H)]].
  - rewrite Hc. split; [auto |]. split; [discriminate | intros E; now elim He].
  - rewrite Hc, He. split; [auto |]. now split.
  - destruct H as [(Hc & He) | (Hc & e & He)]; rewrite Hc, He.
    + split; [auto |]. now split.
    + split; [auto |]. split; discriminate.
Qed.

(** X13: A usage error comes before anything else: when the status is 2,
    nothing was printed and no callback was entered. *)
Theorem usage_error_before_output env (argv : list string) :
  exit_code (main env argv) = 2%Z ->
  stdout (streams (main env argv)) = [] /\ called (streams (main env argv)) = [].
Proof.
  intros H2.
  destruct (main_outcome env argv)
    as [(_ & Ho & Hc & _) | [(Hc & _) | (name & args & h & lines & _ & _ & _ & _ & H)]].
  - now split.
  - rewrite Hc in H2. discriminate.
  - destruct H as [(Hc & _) | (Hc & _)]; rewrite Hc in H2; discriminate.
Qed.

Lemma usage_error_before_output_witness :
  exit_code (main (runner Click_8_1) ["hello"; "--count"; "abc"; "--name"]) = 2%Z
  /\ stdout (streams (main (runner Click_8_1) ["hello"; "--count"; "abc"; "--name"])) = []
  /\ called (streams (main (runner Click_8_1) ["hello"; "--count"; "abc"; "--name"])) = [].
Proof.
  split; [reflexivity |].
  apply (usage_error_before_output (runner Click_8_1) ["hello"; "--count"; "abc"; "--name"]).
  reflexivity.
Defined.

(** X14: The status 1 is that of an exception inside a callback: exactly one
    callback was entered, what was printed until then are lines, and the
    error stream holds the traceback alone. *)
Theorem crash_inside_callback env (argv : list string) :
  exit_code (main env argv) = 1%Z ->
  exists h lines e,
    called (streams (main env argv)) = [h]
    /\ stdout (streams (main env argv)) = map Line lines
    /\ stderr (streams (main env argv)) = [Traceback e].
Proof.
  intros H1.
  destruct (main_outcome env argv)
    as [(Hc & _) | [(Hc & _) | (name & args & h & lines & _ & _ & Hcalled & Hout & H)]].
  - rewrite Hc in H1. discriminate.
  - rewrite Hc in H1. discriminate.
  - destruct H as [(Hc & _) | (_ & e & He)]; [rewrite Hc in H1; discriminate |].
    exists h, lines, e. auto.
Qed.

Lemma crash_inside_callback_witness :
  exit_code (main (runner Click_8_1) ["list-items"; "a"; "[/]"]) = 1%Z
  /\ exists h lines e,
       called (streams (main (runner Click_8_1) ["list-items"; "a"; "[/]"])) = [h]
       /\ stdout (streams (main (runner Click_8_1) ["list-items"; "a"; "[/]"])) = map Line lines
       /\ stderr (streams (main (runner Click_8_1) ["list-items"; "a"; "[/]"])) = [Traceback e].
Proof.
  split; [reflexivity |].
  apply (crash_inside_callback (runner Click_8_1) ["list-items"; "a"; "[/]"]).
  reflexivity.
Defined.

(** X15: A callback is entered only under its own name: when a run enters a
    callback, it enters that one alone, and the first token of the
    arguments, or the token after a leading [--], is the name of its
    command.  No subcommand runs behind an option of the group. *)
Theorem callback_only_by_name env (argv : list string) (h : Handler) :
  In h (called (streams (main env argv))) ->
  called (streams (main env argv)) = [h]
  /\ exists name args,
       (argv = name :: args \/ argv = "--" :: name :: args)
       /\ get_command name = Some h.
Proof.
  intros Hin.
  destruct (main_outcome env argv)
    as [(_ & _ & Hc & _) | [(_ & _ & Hc & _)
                           | (name & args & h' & lines & Hargv & Hh & Hc & _)]];
    rewrite Hc in Hin; cbn in Hin; try contradiction.
  destruct Hin as [<- | []].
  split; [exact Hc |]. now exists name, args.
Qed.

Lemma callback_only_by_name_witness :
  In Info (called (streams (main (runner Click_8_1) ["--"; "info"])))
  /\ called (streams (main (runner Click_8_1) ["--"; "info"])) = [Info]
  /\ exists name args,
       (["--"; "info"] = name :: args \/ ["--"; "info"] = "--" :: name :: args)
       /\ get_command name = Some Info.
Proof.
  assert (H : In Info (called (streams (main (runner Click_8_1) ["--"; "info"]))))
    by (left; reflexivity).
  split; [exact H |].
  apply (callback_only_by_name (runner Click_8_1) ["--"; "info"] Info H).
Defined.

(** ** The tests *)

Lemma prefix_app (sub rest : string) : String.prefix sub (sub ++ rest) = true.
Proof.
  induction sub as [|c sub IH]; cbn [String.prefix String.append].
  - now destruct rest.
  - destruct (ascii_dec c c) as [_ | Hne]; [exact IH | now elim Hne].
Qed.

Lemma is_infix_here (sub rest : string) : Str.is_infix sub (sub ++ rest) = true.
Proof.
  destruct (sub ++ rest) eqn:E; cbn [Str.is_infix];
    rewrite <- E, prefix_app; reflexivity.
Qed.

Lemma is_infix_later (sub before text : string) :
  Str.is_infix sub text = true -> Str.is_infix sub (before ++ text) = true.
Proof.
  intros H. induction before as [|c before IH]; [exact H |].
  cbn [String.append Str.is_infix]. rewrite IH. apply orb_true_r.
Qed.

Lemma is_infix_app (before sub after : string) :
  Str.is_infix sub (before ++ sub ++ after) = true.
Proof. apply is_infix_later, is_infix_here. Qed.

Lemma lines_text_repeat (text : string) (n : nat) :
  Tests.lines_text (List.repeat (Line text) n)
  = Some (Str.repeat (text ++ String (ascii_of_nat 10) "") n).
Proof.
  induction n as [|n IH]; [reflexivity |].
  cbn [List.repeat Tests.lines_text Str.repeat]. rewrite IH. cbn [option_map].
  now rewrite app_assoc.
Qed.

Lemma count_greetings (n : nat) :
  Tests.count "Hello, World!"
    (Str.repeat ("Hello, World!" ++ String (ascii_of_nat 10) "") n) = n.
Proof.
  unfold Tests.count.
  induction n as [|n IH]; [reflexivity |].
  cbn [Str.repeat].
  change (Tests.count_from 0 "Hello, World!"
            (("Hello, World!" ++ String (ascii_of_nat 10) "")
             ++ Str.repeat ("Hello, World!" ++ String (ascii_of_nat 10) "") n))
    with (S (Tests.count_from 0 "Hello, World!"
               (Str.repeat ("Hello, World!" ++ String (ascii_of_nat 10) "") n))).
  now rewrite IH.
Qed.

(** X16: [test_hello_with_name] passes, and its check holds for every name
    that prints as it is and whose greeting is no wider than the console,
    not only for [Python]. *)
Theorem check_hello_with_name_holds env :
  (forall name,
      verbatim name = true ->
      String.length ("Hello, " ++ name ++ "!") <= Rich.console_width ->
      Tests.check_hello_with_name env name = true)
  /\ Tests.test_hello_with_name env = true.
Proof.
  assert (Hall : forall name,
             verbatim name = true ->
             String.length ("Hello, " ++ name ++ "!") <= Rich.console_width ->
             Tests.check_hello_with_name env name = true);
    [| split; [exact Hall | apply (Hall "Python"); [reflexivity | fits_console]]].
  intros name H Hw. unfold Tests.check_hello_with_name, Tests.invoke.
  set (env' := {| prog_name := "main"; click_release := click_release env;
                  EMOJI := EMOJI env; style_normalize := style_normalize env;
                  meta_parameters_ok := meta_parameters_ok env;
                  int_non_ascii := int_non_ascii env;
                  wrap := wrap env |}).
  assert (E : main env' ["hello"; "--name"; name]
              = {| exit_code := 0;
                   streams := {| stdout := [Line ("Hello, " ++ name ++ "!")];
                                 stderr := [];
                                 called := [Hello] |} |})
    by (run_main; now rewrite hello_lines).
  cbv zeta. rewrite E. unfold Tests.in_output, Tests.output.
  cbn [exit_code streams stdout stderr Tests.lines_text option_map Z.eqb andb].
  apply is_infix_here.
Qed.

Lemma check_hello_with_name_holds_witness :
  verbatim "Python" = true
  /\ String.length ("Hello, " ++ "Python" ++ "!") <= Rich.console_width
  /\ Tests.check_hello_with_name (runner Click_8_2) "Python" = true.
Proof.
  split; [reflexivity | split; [fits_console |]].
  apply (proj1 (check_hello_with_name_holds (runner Click_8_2)) "Python");
    [reflexivity | fits_console].
Defined.

(** X17: [test_hello_with_count] passes, and its check holds for every count
    written with at most 4300 digits, not only for 3: the greeting occurs
    in the output as many times as asked. *)
Theorem check_hello_with_count_holds env :
  (forall n,
      Py.str_digits (Z.of_nat n) <= Py.max_str_digits ->
      Tests.check_hello_with_count env n = true)
  /\ Tests.test_hello_with_count env = true.
Proof.
  assert (Hall : forall n,
             Py.str_digits (Z.of_nat n) <= Py.max_str_digits ->
             Tests.check_hello_with_count env n = true);
    [| split; [exact Hall | apply (Hall 3%nat); fits_console]].
  intros n Hd. unfold Tests.check_hello_with_count, Tests.invoke.
  set (env' := {| prog_name := "main"; click_release := click_release env;
                  EMOJI := EMOJI env; style_normalize := style_normalize env;
                  meta_parameters_ok := meta_parameters_ok env;
                  int_non_ascii := int_non_ascii env;
                  wrap := wrap env |}).
  cbv zeta.
  rewrite (hello_with_count env' _ (Z.of_nat n)) by now apply int_str.
  rewrite Nat2Z.id. unfold Tests.output.
  cbn [exit_code streams stdout stderr Z.eqb andb].
  rewrite lines_text_repeat, count_greetings. apply Nat.eqb_refl.
Qed.

Lemma check_hello_with_count_holds_witness :
  Py.str_digits (Z.of_nat 3) <= Py.max_str_digits
  /\ Tests.check_hello_with_count (runner Click_8_1) 3 = true.
Proof.
  split; [fits_console |].
  apply (proj1 (check_hello_with_count_holds (runner Click_8_1)) 3%nat); fits_console.
Defined.

Lemma list_items_run env (items : list string) :
  items <> [] ->
  Forall (fun item => Click.is_option_token item = false /\ verbatim item = true) items ->
  Forall (fun '(i, item) =>
            String.length ("  " ++ Py.str (Z.of_nat i) ++ ". " ++ item)
            <= Rich.console_width)
         (combine (seq 1 (List.length items)) items) ->
  main env ("list-items" :: items)
  = {| exit_code := 0;
       streams :=
         {| stdout :=
              Line "Items:"
              :: map (fun '(i, item) => Line ("  " ++ Py.str i ++ ". " ++ item))
                   (Py.enumerate items 1);
            stderr := [];
            called := [ListItems] |} |}.
Proof.
  intros Hne H Hw.
  assert (Hopt : Forall (fun item => Click.is_option_token item = false) items)
    by (eapply Forall_impl; [|exact H]; now intros a [? ?]).
  assert (Hv : Forall (fun item => verbatim item = true) items)
    by (eapply Forall_impl; [|exact H]; now intros a [? ?]).
  run_main. unfold list_items_command, parse_args.
  rewrite (process_positional _ _ _ Hopt). cbn -[list_items].
  rewrite (list_items_lines env items _ Hne (items_fit_enumerate items 1 Hv Hw)).
  reflexivity.
Qed.

Lemma item_in_lines (item : string) (l : list (Z * string)) (k : Z) :
  In (k, item) l ->
  exists text,
    Tests.lines_text (map (fun '(i, x) => Line ("  " ++ Py.str i ++ ". " ++ x)) l) = Some text
    /\ Str.is_infix item text = true.
Proof.
  induction l as [|[i x] l IH]; [contradiction |].
  assert (Htext : exists t,
             Tests.lines_text (map (fun '(i, x) => Line ("  " ++ Py.str i ++ ". " ++ x)) l)
             = Some t).
  { clear. induction l as [|[i x] l [t Ht]]; [now exists "" |].
    cbn [map Tests.lines_text]. rewrite Ht. eexists; reflexivity. }
  destruct Htext as [t Ht].
  intros [[= -> ->] | Hin]; cbn [map Tests.lines_text]; rewrite Ht; cbn [option_map];
    eexists; (split; [reflexivity |]).
  - replace (("  " ++ Py.str k ++ ". " ++ item) ++ String (ascii_of_nat 10) t)
      with (("  " ++ Py.str k ++ ". ") ++ item ++ String (ascii_of_nat 10) t)
      by (now rewrite !app_assoc).
    apply is_infix_app.
  - destruct (IH Hin) as (t' & Ht' & Hi). rewrite Ht in Ht'. injection Ht' as <-.
    apply is_infix_later.
    now apply (is_infix_later item (String (ascii_of_nat 10) "")).
Qed.

Lemma enumerate_in {A} (items : list A) (x : A) (start : Z) :
  In x items -> exists k, In (k, x) (Py.enumerate items start).
Proof.
  revert start; induction items as [|y r IH]; intros start; [contradiction |].
  intros [-> | Hin].
  - exists start. now left.
  - destruct (IH (start + 1)%Z Hin) as [k Hk]. exists k. now right.
Qed.

(** X18: [test_list_items] passes, and its check holds for all items that
    print as they are, are not read as options and have lines no wider
    than the console, also for none: the run ends with status 0 and every
    item is in the output. *)
Theorem check_list_items_holds env :
  (forall items,
      Forall (fun item => Click.is_option_token item = false /\ verbatim item = true) items ->
      Forall (fun '(i, item) =>
                String.length ("  " ++ Py.str (Z.of_nat i) ++ ". " ++ item)
                <= Rich.console_width)
             (combine (seq 1 (List.length items)) items) ->
      Tests.check_list_items env items = true)
  /\ Tests.test_list_items env = true.
Proof.
  assert (Hall : forall items,
             Forall (fun item => Click.is_option_token item = false /\ verbatim item = true)
                    items ->
             Forall (fun '(i, item) =>
                       String.length ("  " ++ Py.str (Z.of_nat i) ++ ". " ++ item)
                       <= Rich.console_width)
                    (combine (seq 1 (List.length items)) items) ->
             Tests.check_list_items env items = true);
    [| split; [exact Hall
              | apply (Hall ["apple"; "banana"; "cherry"]);
                repeat constructor; fits_console]].
  intros items H Hw. unfold Tests.check_list_items, Tests.invoke.
  set (env' := {| prog_name := "main"; click_release := click_release env;
                  EMOJI := EMOJI env; style_normalize := style_normalize env;
                  meta_parameters_ok := meta_parameters_ok env;
                  int_non_ascii := int_non_ascii env;
                  wrap := wrap env |}).
  cbv zeta.
  destruct items as [|x r].
  { assert (E : exit_code (main env' ["list-items"]) = 0%Z).
    { run_main. unfold list_items.
      now rewrite (console_print_line env' _ "No items provided!")
        by first [apply render_no_items | reflexivity | fits_console]. }
    rewrite E. reflexivity. }
  rewrite (list_items_run env' (x :: r)) by (discriminate || assumption).
  cbn [exit_code Z.eqb andb]. apply forallb_forall. intros item Hin.
  destruct (enumerate_in (x :: r) item 1 Hin) as [k Hk].
  destruct (item_in_lines item _ k Hk) as (text & Ht & Hi).
  unfold Tests.in_output, Tests.output.
  cbn [streams stdout stderr Tests.lines_text]. rewrite Ht. cbn [option_map].
  apply (is_infix_later item "Items:").
  now apply (is_infix_later item (String (ascii_of_nat 10) "")).
Qed.

Lemma check_list_items_holds_witness :
  Forall (fun item => Click.is_option_token item = false /\ verbatim item = true)
         ["apple"; "banana"; "cherry"]
  /\ Forall (fun '(i, item) =>
               String.length ("  " ++ Py.str (Z.of_nat i) ++ ". " ++ item)
               <= Rich.console_width)
            [(1, "apple"); (2, "banana"); (3, "cherry")]
  /\ Tests.check_list_items (runner Click_8_1) ["apple"; "banana"; "cherry"] = true.
Proof.
  assert (H : Forall (fun item => Click.is_option_token item = false /\ verbatim item = true)
                     ["apple"; "banana"; "cherry"]) by (repeat constructor).
  assert (Hw : Forall (fun '(i, item) =>
                         String.length ("  " ++ Py.str (Z.of_nat i) ++ ". " ++ item)
                         <= Rich.console_width)
                      [(1, "apple"); (2, "banana"); (3, "cherry")])
    by (repeat constructor; fits_console).
  split; [exact H | split; [exact Hw |]].
  apply (proj1 (check_list_items_holds (runner Click_8_1)) ["apple"; "banana"; "cherry"] H Hw).
Defined.

(** The two tests without a parameter pass as well, whatever the
    environment. *)
Lemma tests_default_and_info env :
  Tests.test_hello_default env = true /\ Tests.test_info env = true.
Proof.
  split; [| reflexivity].
  unfold Tests.test_hello_default, Tests.invoke.
  set (env' := {| prog_name := "main"; click_release := click_release env;
                  EMOJI := EMOJI env; style_normalize := style_normalize env;
                  meta_parameters_ok := meta_parameters_ok env;
                  int_non_ascii := int_non_ascii env;
                  wrap := wrap env |}).
  assert (E : main env' ["hello"]
              = {| exit_code := 0;
                   streams := {| stdout := [Line "Hello, World!"];
                                 stderr := [];
                                 called := [Hello] |} |})
    by (run_main; now rewrite hello_lines by (reflexivity || fits_console)).
  cbv zeta. rewrite E. reflexivity.
Qed.
